(** * Session cipher manager of aioshadowsocks: [shadowsocks/cipherman.py]

    A shallow embedding of class [CipherMan] and the properties of its
    user identification, replay defence, buffering and traffic accounting.

    Python objects that several references share (the [User] rows handed
    out by the directory) live in a store indexed by object reference; the
    class attribute [bf] and the metric [NETWORK_TRANSMIT_BYTES] are
    process-wide and live in the [World].  A method is a function from the
    manager's fields and the world to an outcome (a value or a raised
    exception) and the updated fields and world: an exception keeps every
    mutation made before it was raised, as in Python. *)

From Stdlib Require Import ZArith Lia Bool String.
From stdpp Require Import base option list gmap.

#[local] Open Scope string_scope.
#[local] Open Scope Z_scope.

(** ** Data *)

(** [bytes] / [bytearray] / [memoryview] contents. *)
Abbreviation bytes := (list Byte.byte).

(** References to [User] objects (Python object identity). *)
Abbreviation ref := positive.

(** Modelled from the spec: [shadowsocks/protocol_flag.py] is not part of
    the sources; the spec's [transport_kind] is the enum
    {STREAM, DATAGRAM}, the code's [flag.TRANSPORT_TCP] and
    [flag.TRANSPORT_UDP]. *)
Inductive transport : Set := TRANSPORT_TCP | TRANSPORT_UDP.

Definition transport_eqb (a b : transport) : bool :=
  match a, b with
  | TRANSPORT_TCP, TRANSPORT_TCP | TRANSPORT_UDP, TRANSPORT_UDP => true
  | _, _ => false
  end.

(** Modelled from the spec: [shadowsocks/mdb/models.py] ([User]) is not part
    of the sources.  The spec's Candidate User has an identifier, a secret
    credential, an enabled flag, a port binding, traffic counters, a
    connection counter and an ordering field; [method] is the attribute
    [__init__] reads.  The spec's [record_traffic(in_bytes, out_bytes)],
    [increment_active_connections(delta)] and [record_peer_address(addr)]
    update the object they are called on. *)
Module User.

Record t : Type := mk {
  user_id : Z;
  port : Z;
  method : string;
  password : string;
  enable : bool;
  access_order : Z;
  upload_traffic : Z;
  download_traffic : Z;
  tcp_conn_num : Z;
  ip_list : list string
}.

Definition set_access_order (v : Z) (u : t) : t :=
  mk (user_id u) (port u) (method u) (password u) (enable u) v
     (upload_traffic u) (download_traffic u) (tcp_conn_num u) (ip_list u).

Definition record_traffic (used_u used_d : Z) (u : t) : t :=
  mk (user_id u) (port u) (method u) (password u) (enable u) (access_order u)
     (upload_traffic u + used_u) (download_traffic u + used_d)
     (tcp_conn_num u) (ip_list u).

Definition incr_tcp_conn_num (num : Z) (u : t) : t :=
  mk (user_id u) (port u) (method u) (password u) (enable u) (access_order u)
     (upload_traffic u) (download_traffic u) (tcp_conn_num u + num) (ip_list u).

Definition record_ip (peer : string) (u : t) : t :=
  mk (user_id u) (port u) (method u) (password u) (enable u) (access_order u)
     (upload_traffic u) (download_traffic u) (tcp_conn_num u) (peer :: ip_list u).

(** [a != b] on model instances compares primary keys. *)
Definition ne (a b : t) : bool := negb (Z.eqb (user_id a) (user_id b)).

End User.

#[global] Instance User_inhabited : Inhabited User.t :=
  populate (User.mk 0 0 "" "" false 0 0 0 0 []).

(** The messages of the three [RuntimeError]s the manager raises. *)
Inductive runtime_msg : Type :=
| RepeatedSalt                 (* "repeated salt founded!" *)
| NoValidUser                  (* "没有找到合法的用户" *)
| UserDisabled (u : ref).      (* f"用户: {self.access_user} enable = False" *)

(** Python exceptions.  [ValueError] carries [e.args] (the code inspects
    [e.args[0]]); [OtherError] stands for every exception class the code
    neither raises itself nor catches. *)
Inductive exn : Type :=
| RuntimeError (m : runtime_msg)
| ValueError (args : list string)
| TypeError (msg : string)
| IndexError (msg : string)
| AttributeError (msg : string)
| OtherError (name : string).

(** Result of a call: a value or a raised exception. *)
Inductive outcome (A : Type) : Type :=
| Ret (a : A)
| Raise (e : exn).
Arguments Ret {A} a.
Arguments Raise {A} e.

(** What a session does to the Replay Guard, to the candidates and to the
    directory, newest first.  The log is ghost state: the code never reads
    it.  [Trial u d] stands at [cnt += 1]: one trial decryption of [d]
    ([cipher.decrypt(d)] or [cipher.unpack(d)]) with the cipher built from
    candidate [u]'s password. *)
Inductive event : Type :=
| BfContains (salt : bytes)             (* salt in self.bf *)
| BfAdd (salt : bytes)                  (* self.bf.add(salt) *)
| Trial (u : ref) (d : bytes)           (* cnt += 1; cipher.decrypt(d) *)
| UserSave (u : ref)                    (* self.access_user.save() *)
| LogInfo (u : option ref) (cnt : nat). (* logging.info(...) *)

(** ** External collaborators *)

(** Modelled from the spec: [shadowsocks/ciphers] is not part of the
    sources.  The spec's Cipher Capability has the constants [SALT_SIZE]
    and [TAG_SIZE], the stateful [encrypt]/[decrypt] (which return the
    instance's next state, also when they raise) and the per-call
    [pack]/[unpack].  The randomness an instance draws for its salt is not
    modelled; no property below depends on the bytes [encrypt] and [pack]
    produce. *)
Record CipherCls (Cipher : Type) : Type := mkCipherCls {
  SALT_SIZE : nat;
  TAG_SIZE : nat;
  cipher_new : string -> Cipher;
  cipher_decrypt : Cipher -> bytes -> outcome bytes * Cipher;
  cipher_encrypt : Cipher -> bytes -> outcome bytes * Cipher;
  cipher_unpack : Cipher -> bytes -> outcome bytes;
  cipher_pack : Cipher -> bytes -> outcome bytes
}.
Arguments SALT_SIZE {Cipher} _.
Arguments TAG_SIZE {Cipher} _.
Arguments cipher_new {Cipher} _ _.
Arguments cipher_decrypt {Cipher} _ _ _.
Arguments cipher_encrypt {Cipher} _ _ _.
Arguments cipher_unpack {Cipher} _ _ _.
Arguments cipher_pack {Cipher} _ _ _.

(** The five classes [cipherman.py] imports from [shadowsocks.ciphers]. *)
Class Ciphers : Type := {
  Cipher : Type;
  NONE : CipherCls Cipher;
  AES256CFB : CipherCls Cipher;
  AES128GCM : CipherCls Cipher;
  AES256GCM : CipherCls Cipher;
  CHACHA20IETFPOLY1305 : CipherCls Cipher
}.

(** [bloom_filter.BloomFilter]: a third-party probabilistic set. *)
Class BloomFilter : Type := {
  BF : Type;
  bf_new : BF;                          (* BloomFilter() *)
  bf_contains : bytes -> BF -> bool;    (* key in bf *)
  bf_add : bytes -> BF -> BF            (* bf.add(key) *)
}.

(** What the spec requires of the Replay Guard: no false negatives.  False
    positives are allowed. *)
Class BloomFilterSound `{BloomFilter} : Prop := {
  bf_contains_add : forall s b, bf_contains s (bf_add s b) = true;
  bf_contains_mono : forall s t b,
    bf_contains s b = true -> bf_contains s (bf_add t b) = true
}.

(** ** The manager and the process-wide state *)

Section CipherMan.

Context `{CS : Ciphers} `{RG : BloomFilter}.

(** Process-wide state: the class attribute [CipherMan.bf], the [User]
    objects (by reference), the rows [User.save] has written (by primary
    key), the metric [NETWORK_TRANSMIT_BYTES] and the log of events (newest
    first). *)
Record World : Type := mkWorld {
  bf : BF;
  users : gmap ref User.t;
  directory : gmap Z User.t;
  NETWORK_TRANSMIT_BYTES : Z;
  log : list event
}.

Definition set_bf (v : BF) (w : World) : World :=
  mkWorld v (users w) (directory w) (NETWORK_TRANSMIT_BYTES w) (log w).
Definition set_users (v : gmap ref User.t) (w : World) : World :=
  mkWorld (bf w) v (directory w) (NETWORK_TRANSMIT_BYTES w) (log w).
Definition set_directory (v : gmap Z User.t) (w : World) : World :=
  mkWorld (bf w) (users w) v (NETWORK_TRANSMIT_BYTES w) (log w).
Definition set_NETWORK_TRANSMIT_BYTES (v : Z) (w : World) : World :=
  mkWorld (bf w) (users w) (directory w) v (log w).
Definition set_log (v : list event) (w : World) : World :=
  mkWorld (bf w) (users w) (directory w) (NETWORK_TRANSMIT_BYTES w) v.

(** The instance attributes [__init__] creates. *)
Record CipherMan : Type := mkCipherMan {
  user_list : list ref;
  access_user : option ref;
  ts_protocol : transport;
  cipher : option Cipher;
  _first_data : option bytes;
  _buffer : bytes;
  last_access_user : option ref;
  method : string;
  cipher_cls : CipherCls Cipher;
  _first_data_len : nat
}.

Definition set_user_list (v : list ref) (m : CipherMan) : CipherMan :=
  mkCipherMan v (access_user m) (ts_protocol m) (cipher m) (_first_data m)
    (_buffer m) (last_access_user m) (method m) (cipher_cls m) (_first_data_len m).
Definition set_access_user (v : option ref) (m : CipherMan) : CipherMan :=
  mkCipherMan (user_list m) v (ts_protocol m) (cipher m) (_first_data m)
    (_buffer m) (last_access_user m) (method m) (cipher_cls m) (_first_data_len m).
Definition set_cipher (v : option Cipher) (m : CipherMan) : CipherMan :=
  mkCipherMan (user_list m) (access_user m) (ts_protocol m) v (_first_data m)
    (_buffer m) (last_access_user m) (method m) (cipher_cls m) (_first_data_len m).
Definition set_first_data (v : option bytes) (m : CipherMan) : CipherMan :=
  mkCipherMan (user_list m) (access_user m) (ts_protocol m) (cipher m) v
    (_buffer m) (last_access_user m) (method m) (cipher_cls m) (_first_data_len m).
Definition set_buffer (v : bytes) (m : CipherMan) : CipherMan :=
  mkCipherMan (user_list m) (access_user m) (ts_protocol m) (cipher m) (_first_data m)
    v (last_access_user m) (method m) (cipher_cls m) (_first_data_len m).
Definition set_last_access_user (v : option ref) (m : CipherMan) : CipherMan :=
  mkCipherMan (user_list m) (access_user m) (ts_protocol m) (cipher m) (_first_data m)
    (_buffer m) v (method m) (cipher_cls m) (_first_data_len m).

(** *** Computations: state passing with exceptions *)

Definition Py (A : Type) : Type :=
  CipherMan -> World -> outcome A * CipherMan * World.

Definition ret {A} (a : A) : Py A := fun m w => (Ret a, m, w).
Definition raise {A} (e : exn) : Py A := fun m w => (Raise e, m, w).
Definition bind {A B} (c : Py A) (k : A -> Py B) : Py B :=
  fun m w =>
    match c m w with
    | (Ret a, m', w') => k a m' w'
    | (Raise e, m', w') => (Raise e, m', w')
    end.
Definition self : Py CipherMan := fun m w => (Ret m, m, w).
Definition world : Py World := fun m w => (Ret w, m, w).
Definition update_self (f : CipherMan -> CipherMan) : Py unit :=
  fun m w => (Ret tt, f m, w).
Definition update_world (f : World -> World) : Py unit :=
  fun m w => (Ret tt, m, f w).
Definition lift {A} (r : outcome A) : Py A := fun m w => (r, m, w).
(** [try: c] with the exception, if any, handed to the [except] clause. *)
Definition try {A} (c : Py A) : Py (outcome A) :=
  fun m w => let '(r, m', w') := c m w in (Ret r, m', w').
Definition emit (e : event) : Py unit :=
  update_world (fun w => set_log (e :: log w) w).

#[local] Notation "x <- c ;; k" := (bind c (fun x => k))
  (at level 20, c at level 99, k at level 200, only parsing).
#[local] Notation "c ;; k" := (bind c (fun _ => k))
  (at level 100, k at level 200, right associativity, only parsing).

(** Attribute reads and writes on a [User] object. *)
Definition user (u : ref) : Py User.t :=
  w <- world ;; ret (users w !!! u).
Definition update_user (u : ref) (f : User.t -> User.t) : Py unit :=
  update_world (fun w => set_users (<[u := f (users w !!! u)]> (users w)) w).

(** Modelled from the spec: [User.save] (peewee's [Model.save]) persists
    the object's fields as the row of its primary key. *)
Definition save (u : ref) : Py unit :=
  o <- user u ;;
  emit (UserSave u) ;;
  update_world (fun w => set_directory (<[User.user_id o := o]> (directory w)) w).

(** *** [SUPPORT_METHODS] and [__init__] *)

Definition SUPPORT_METHODS (name : string) : option (CipherCls Cipher) :=
  if String.eqb name "none" then Some NONE
  else if String.eqb name "aes-256-cfb" then Some AES256CFB
  else if String.eqb name "aes-128-gcm" then Some AES128GCM
  else if String.eqb name "aes-256-gcm" then Some AES256GCM
  else if String.eqb name "chacha20-ietf-poly1305" then Some CHACHA20IETFPOLY1305
  else None.

Definition __init__ (w : World) (user_list : list ref) (access_user : option ref)
    (ts_protocol : transport) : outcome CipherMan :=
  let method :=
    match access_user with
    | Some u => Ret (User.method (users w !!! u))
    | None =>
        match user_list with
        | u :: _ => Ret (User.method (users w !!! u))
        | [] => Raise (IndexError "list index out of range")
        end
    end in
  match method with
  | Raise e => Raise e
  | Ret method =>
      match SUPPORT_METHODS method with
      | None => Raise (AttributeError "'NoneType' object has no attribute 'SALT_SIZE'")
      | Some cls =>
          Ret (mkCipherMan user_list access_user ts_protocol None None [] None
                 method cls
                 (if transport_eqb ts_protocol TRANSPORT_TCP
                  then SALT_SIZE cls + 2 + TAG_SIZE cls
                  else SALT_SIZE cls + TAG_SIZE cls)%nat)
      end
  end.

(** Modelled from the spec: [User.list_by_port] is the directory's
    [list_candidates(port)], an ordered sequence of users. *)
Variable list_by_port : World -> Z -> list ref.

Definition get_cipher_by_port (w : World) (port : Z) (ts_protocol : transport)
    : outcome CipherMan :=
  let user_list := list_by_port w port in
  let access_user :=
    if (length user_list =? 1)%nat then head user_list else None in
  __init__ w user_list access_user ts_protocol.

(** *** [_find_access_user] *)

(** The body of the [try] after [cnt += 1]: the decryption of [d] with the
    candidate's cipher [c], and on success the binding of the session to
    [u]. *)
Definition trial (c : Cipher) (u : ref) (d : bytes) : Py unit :=
  m <- self ;;
  (if transport_eqb (ts_protocol m) TRANSPORT_TCP then
     match cipher_decrypt (cipher_cls m) c d with
     | (Ret p, c') =>
         update_self (set_first_data (Some p)) ;;
         update_self (set_cipher (Some c'))
     | (Raise e, _) => raise e
     end
   else
     match cipher_unpack (cipher_cls m) c d with
     | Ret p => update_self (set_first_data (Some p))
     | Raise e => raise e
     end) ;;
  update_self (set_access_user (Some u)).

(** [for user in self.user_list: ...], with the counter [cnt]; the result
    is [cnt] when the loop ends, by [break] or by exhaustion. *)
Fixpoint find_loop (first_data : bytes) (us : list ref) (cnt : nat) : Py nat :=
  match us with
  | [] => ret cnt
  | u :: us' =>
      m <- self ;;
      match last_access_user m with
      | None => update_self (set_last_access_user (Some u))
      | Some _ => ret tt
      end ;;
      o <- user u ;;
      let c := cipher_new (cipher_cls m) (User.password o) in
      r <- try (emit (Trial u first_data) ;; trial c u first_data) ;;
      let cnt := S cnt in
      match r with
      | Ret _ => ret cnt                                   (* break *)
      | Raise (ValueError args) =>
          match args with
          | [] => raise (IndexError "tuple index out of range")
          | a :: _ =>
              if String.eqb a "MAC check failed"
              then find_loop first_data us' cnt            (* del cipher *)
              else raise (ValueError args)
          end
      | Raise e => raise e
      end
  end.

Definition _find_access_user (first_data : bytes) : Py unit :=
  m <- self ;;
  let salt := take (SALT_SIZE (cipher_cls m)) first_data in
  emit (BfContains salt) ;;
  w <- world ;;
  (if bf_contains salt (bf w)
   then raise (RuntimeError RepeatedSalt)
   else emit (BfAdd salt) ;;
        update_world (fun w => set_bf (bf_add salt (bf w)) w)) ;;
  cnt <- find_loop first_data (user_list m) 0 ;;
  m <- self ;;
  emit (LogInfo (access_user m) cnt).

(** *** [_init_cipher_and_decrypt_first_data] *)

(** The candidate of [us] that holds the best (greatest) ordering value in
    [w]; among equals the earliest of [us]; [None] if [us] is empty. *)
Fixpoint best (w : World) (us : list ref) : option ref :=
  match us with
  | [] => None
  | v :: us' =>
      match best w us' with
      | None => Some v
      | Some b =>
          if User.access_order (users w !!! b) <=? User.access_order (users w !!! v)
          then Some v
          else Some b
      end
  end.

(** Modelled from the spec: [self.user_list.first()] is a call into the
    User Directory, which is not part of the sources.  It asks the directory
    anew for the port's candidates in the directory's order, best ordering
    value first, and keeps the first row: it returns the candidate with the
    spec's "current best-known ordering value" ([None] without candidates),
    and the query object [self.user_list] is that single row from then on.
    The objects of the store stand for the directory's current rows (an
    ordering field is saved as soon as it is set). *)
Definition first : Py (option ref) :=
  m <- self ;;
  w <- world ;;
  let b := best w (user_list m) in
  update_self (set_user_list (option_list b)) ;;
  ret b.

Definition _init_cipher_and_decrypt_first_data (data : bytes)
    : Py (option bytes) :=
  m <- self ;;
  if (length data + length (_buffer m) <? _first_data_len m)%nat then
    update_self (set_buffer (_buffer m ++ data)%list) ;;
    ret None
  else
    let data := (_buffer m ++ data)%list in
    update_self (set_buffer []) ;;
    match access_user m with
    | None => _find_access_user data
    | Some _ => ret tt
    end ;;
    m <- self ;;
    match access_user m with
    | None => raise (RuntimeError NoValidUser)
    | Some u =>
        o <- user u ;;
        if negb (User.enable o) then raise (RuntimeError (UserDisabled u))
        else
          match last_access_user m with
          | None => ret tt
          | Some l =>
              ol <- user l ;;
              if User.ne o ol then
                f <- first ;;
                match f with
                | None =>
                    raise (AttributeError
                             "'NoneType' object has no attribute 'access_order'")
                | Some f =>
                    top <- user f ;;
                    update_user u
                      (User.set_access_order (User.access_order top + 1)) ;;
                    save u
                end
              else ret tt
          end ;;
          m <- self ;;
          ret (_first_data m)
    end.

(** *** Accounting, [encrypt] and [decrypt] *)

Definition _record_user_traffic (data_len : nat) : Py unit :=
  m <- self ;;
  match access_user m with
  | Some u =>
      update_user u
        (User.record_traffic (Z.of_nat data_len) (Z.of_nat data_len))
  | None => ret tt
  end ;;
  update_world (fun w =>
    set_NETWORK_TRANSMIT_BYTES
      (NETWORK_TRANSMIT_BYTES w + Z.of_nat data_len) w).

(** [self.cipher_cls(self.access_user.password)] *)
Definition new_cipher_of_access_user : Py Cipher :=
  m <- self ;;
  match access_user m with
  | None => raise (AttributeError "'NoneType' object has no attribute 'password'")
  | Some u =>
      o <- user u ;;
      ret (cipher_new (cipher_cls m) (User.password o))
  end.

Definition encrypt (data : bytes) : Py bytes :=
  _record_user_traffic (length data) ;;
  m <- self ;;
  if transport_eqb (ts_protocol m) TRANSPORT_UDP then
    c <- new_cipher_of_access_user ;;
    lift (cipher_pack (cipher_cls m) c data)
  else
    c <- match cipher m with
         | None =>
             c <- new_cipher_of_access_user ;;
             update_self (set_cipher (Some c)) ;;
             ret c
         | Some c => ret c
         end ;;
    let '(r, c') := cipher_encrypt (cipher_cls m) c data in
    update_self (set_cipher (Some c')) ;;
    lift r.

(** [len(data)] where [data] may be [None]. *)
Definition len (data : option bytes) : Py nat :=
  match data with
  | Some d => ret (length d)
  | None => raise (TypeError "object of type 'NoneType' has no len()")
  end.

Definition decrypt (data : bytes) : Py (option bytes) :=
  m <- self ;;
  match cipher m with
  | None =>
      (* NOTE udp never has a cipher *)
      data <- _init_cipher_and_decrypt_first_data data ;;
      n <- len data ;;
      _record_user_traffic n ;;
      ret data
  | Some c =>
      _record_user_traffic (length data) ;;
      let '(r, c') := cipher_decrypt (cipher_cls m) c data in
      update_self (set_cipher (Some c')) ;;
      p <- lift r ;;
      ret (Some p)
  end.

Definition incr_user_tcp_num (num : Z) : Py unit :=
  m <- self ;;
  match access_user m with
  | Some u => update_user u (User.incr_tcp_conn_num num)
  | None => ret tt
  end.

Definition record_user_ip (peername : string) : Py unit :=
  m <- self ;;
  match access_user m with
  | Some u => update_user u (User.record_ip peername)
  | None => ret tt
  end.

(** *** Sessions: sequences of calls on one manager *)

Inductive call : Type :=
| Encrypt (data : bytes)
| Decrypt (data : bytes)
| IncrUserTcpNum (num : Z)
| RecordUserIp (peername : string).

Definition run_call (c : call) : Py (option bytes) :=
  match c with
  | Encrypt d => p <- encrypt d ;; ret (Some p)
  | Decrypt d => decrypt d
  | IncrUserTcpNum n => incr_user_tcp_num n ;; ret None
  | RecordUserIp p => record_user_ip p ;; ret None
  end.

(** The calls of [cs] in order on one manager; a call that raises leaves
    its mutations behind and the next call runs all the same (the caller
    may or may not drop the session: both are covered). *)
Fixpoint run_calls (cs : list call) (m : CipherMan) (w : World)
    : list (outcome (option bytes)) * CipherMan * World :=
  match cs with
  | [] => ([], m, w)
  | c :: cs' =>
      let '(r, m', w') := run_call c m w in
      let '(rs, m'', w'') := run_calls cs' m' w' in
      (r :: rs, m'', w'')
  end.

(** *** Vocabulary of the properties *)

(** The salt [_find_access_user] slices off a blob. *)
Definition salt_of (m : CipherMan) (d : bytes) : bytes :=
  take (SALT_SIZE (cipher_cls m)) d.

(** What the trial decryption of [d] under candidate [u]'s credential
    yields in a session like [m]: [cipher.decrypt] for TCP, [cipher.unpack]
    for UDP, on a cipher fresh from [u]'s password. *)
Definition trial_outcome (m : CipherMan) (w : World) (u : ref) (d : bytes)
    : outcome bytes :=
  let c := cipher_new (cipher_cls m) (User.password (users w !!! u)) in
  if transport_eqb (ts_protocol m) TRANSPORT_TCP
  then (cipher_decrypt (cipher_cls m) c d).1
  else cipher_unpack (cipher_cls m) c d.

(** The cipher a successful trial leaves in [self.cipher]: the instance
    that decrypted, for TCP; nothing new for UDP. *)
Definition trial_cipher (m : CipherMan) (w : World) (u : ref) (d : bytes)
    : option Cipher :=
  let c := cipher_new (cipher_cls m) (User.password (users w !!! u)) in
  if transport_eqb (ts_protocol m) TRANSPORT_TCP
  then Some (cipher_decrypt (cipher_cls m) c d).2
  else cipher m.

(** The integrity failure the loop skips: a [ValueError] whose first
    argument is ["MAC check failed"]. *)
Definition mac_check_failed (r : outcome bytes) : bool :=
  match r with
  | Raise (ValueError (a :: _)) => String.eqb a "MAC check failed"
  | _ => false
  end.

(** What leaves the [except] clause for an exception it does not skip:
    the exception itself, but [e.args[0]] on a [ValueError] without
    arguments raises [IndexError]. *)
Definition reraised (e : exn) : exn :=
  match e with
  | ValueError [] => IndexError "tuple index out of range"
  | _ => e
  end.

(** [if not self.last_access_user: self.last_access_user = user] *)
Definition seed (u : ref) (m : CipherMan) : CipherMan :=
  match last_access_user m with
  | None => set_last_access_user (Some u) m
  | Some _ => m
  end.

Definition logged (e : event) (w : World) : World := set_log (e :: log w) w.

(** [last_access_user] once the loop has iterated over [us]. *)
Definition seeded (us : list ref) (m : CipherMan) : CipherMan :=
  match us with
  | u :: _ => seed u m
  | [] => m
  end.

(** The log entries of one trial per candidate of [us], in order. *)
Definition tried (d : bytes) (us : list ref) : list event :=
  reverse (map (fun u => Trial u d) us).

Definition logged_all (es : list event) (w : World) : World :=
  set_log (es ++ log w)%list w.

(** The fields a successful trial assigns: [self._first_data], [self.cipher]
    and [self.access_user]. *)
Definition bound (u : ref) (p : bytes) (c : option Cipher) (m : CipherMan)
    : CipherMan :=
  set_access_user (Some u) (set_cipher c (set_first_data (Some p) m)).

(** The salts inserted into the Replay Guard, newest first. *)
Fixpoint inserted (l : list event) : list bytes :=
  match l with
  | [] => []
  | BfAdd s :: l' => s :: inserted l'
  | _ :: l' => inserted l'
  end.

(** The trial decryptions, newest first. *)
Fixpoint trials (l : list event) : list (ref * bytes) :=
  match l with
  | [] => []
  | Trial u d :: l' => (u, d) :: trials l'
  | _ :: l' => trials l'
  end.

(** The Replay Guard lookups, newest first. *)
Fixpoint lookups (l : list event) : list bytes :=
  match l with
  | [] => []
  | BfContains s :: l' => s :: lookups l'
  | _ :: l' => lookups l'
  end.

(** One step of the process: some session (any manager [m]) runs one of
    the manager's methods. *)
Inductive world_step : World -> World -> Prop :=
| step_call (m : CipherMan) (c : call) (w : World) :
    world_step w (run_call c m w).2
| step_find (m : CipherMan) (d : bytes) (w : World) :
    world_step w (_find_access_user d m w).2
| step_init (m : CipherMan) (d : bytes) (w : World) :
    world_step w (_init_cipher_and_decrypt_first_data d m w).2.

(** [later w w']: the process can get from [w] to [w']. *)
Definition later : World -> World -> Prop := rtc world_step.

(** The argument [_record_user_traffic] is called with in call [c], read
    off [encrypt] and [decrypt]: [len(data)] of the argument for [encrypt]
    and for a [decrypt] through the persisted cipher; [len] of what
    [_init_cipher_and_decrypt_first_data] returned for a [decrypt] on the
    first-data path, which is not reached if that raises. *)
Definition transferred (c : call) (m : CipherMan) (r : outcome (option bytes))
    : nat :=
  match c with
  | Encrypt d => length d
  | Decrypt d =>
      match cipher m with
      | Some _ => length d
      | None =>
          match r with
          | Ret (Some p) => length p
          | _ => 0
          end
      end
  | _ => 0
  end.

(** What the calls [cs], run in order from [m], [w], account one by one. *)
Fixpoint byte_counts (cs : list call) (m : CipherMan) (w : World) : list nat :=
  match cs with
  | [] => []
  | c :: cs' =>
      let '(r, m', w') := run_call c m w in
      transferred c m r :: byte_counts cs' m' w'
  end.

Definition sum (l : list nat) : Z := Z.of_nat (foldr Nat.add 0%nat l).

(** [_init_cipher_and_decrypt_first_data] from its second
    [if not self.access_user:] on: the checks and the promotion that follow
    identification. *)
Definition after_identification : Py (option bytes) :=
  m <- self ;;
  match access_user m with
  | None => raise (RuntimeError NoValidUser)
  | Some u =>
      o <- user u ;;
      if negb (User.enable o) then raise (RuntimeError (UserDisabled u))
      else
        match last_access_user m with
        | None => ret tt
        | Some l =>
            ol <- user l ;;
            if User.ne o ol then
              f <- first ;;
              match f with
              | None =>
                  raise (AttributeError
                           "'NoneType' object has no attribute 'access_order'")
              | Some f =>
                  top <- user f ;;
                  update_user u
                    (User.set_access_order (User.access_order top + 1)) ;;
                  save u
              end
            else ret tt
        end ;;
        m <- self ;;
        ret (_first_data m)
  end.

(** The world after [self.access_user.access_order =
    self.user_list.first().access_order + 1] and [self.access_user.save()],
    for the bound user [u] and the candidate [f] that [first()] returned. *)
Definition promote (u f : ref) (w : World) : World :=
  let o := User.set_access_order (User.access_order (users w !!! f) + 1)
             (users w !!! u) in
  set_directory (<[User.user_id o := o]> (directory w))
    (logged (UserSave u) (set_users (<[u := o]> (users w)) w)).

(** The world after [_record_user_traffic(data_len)] in session [m]. *)
Definition account (data_len : nat) (m : CipherMan) (w : World) : World :=
  let w1 :=
    match access_user m with
    | Some u =>
        set_users
          (<[u := User.record_traffic (Z.of_nat data_len) (Z.of_nat data_len)
                    (users w !!! u)]> (users w)) w
    | None => w
    end in
  set_NETWORK_TRANSMIT_BYTES
    (NETWORK_TRANSMIT_BYTES w1 + Z.of_nat data_len) w1.

(** Views of the state, for what a method leaves unchanged. *)

(** What the Replay Guard holds and what has been inserted into it. *)
Definition guard (w : World) : BF * list bytes :=
  (bf w, inserted (log w)).

(** Everything identification does: the Replay Guard, its lookups and
    insertions, and the trial decryptions. *)
Definition identification (w : World)
    : BF * list bytes * list bytes * list (ref * bytes) :=
  (bf w, lookups (log w), inserted (log w), trials (log w)).

(** The traffic counters of user [u] and the transmitted-bytes metric. *)
Definition traffic (u : ref) (w : World) : Z * Z * Z :=
  (User.upload_traffic (users w !!! u), User.download_traffic (users w !!! u),
   NETWORK_TRANSMIT_BYTES w).

(** The transport and, for UDP, the persisted cipher. *)
Definition datagram_cipher (m : CipherMan) : transport * option Cipher :=
  (ts_protocol m,
   match ts_protocol m with
   | TRANSPORT_UDP => cipher m
   | TRANSPORT_TCP => None
   end).

(** A step leaves the Replay Guard alone or inserts one salt it did not
    contain. *)
Definition guard_step (w w' : World) : Prop :=
  guard w' = guard w
  \/ exists s, bf_contains s (bf w) = false
              /\ bf w' = bf_add s (bf w)
              /\ inserted (log w') = s :: inserted (log w).

(** Every inserted salt was inserted once, and the Replay Guard contains
    it. *)
Definition guard_ok (w : World) : Prop :=
  NoDup (inserted (log w))
  /\ forall s, In s (inserted (log w)) -> bf_contains s (bf w) = true.

(** The first branch of [decrypt] ([if not self.cipher:]) on its own. *)
Definition first_data_path (data : bytes) : Py (option bytes) :=
  data <- _init_cipher_and_decrypt_first_data data ;;
  n <- len data ;;
  _record_user_traffic n ;;
  ret data.

(** The transport, the method, the cipher class and the threshold. *)
Definition config (m : CipherMan)
    : transport * string * CipherCls Cipher * nat :=
  (ts_protocol m, method m, cipher_cls m, _first_data_len m).

(** The manager but for its candidate list. *)
Definition but_user_list (m : CipherMan) : CipherMan := set_user_list [] m.

(** The pending buffer is empty or below the threshold. *)
Definition buffer_ok (m : CipherMan) : Prop :=
  _buffer m = [] \/ (length (_buffer m) < _first_data_len m)%nat.

(** What [encrypt] and [decrypt] return for a cipher's result. *)
Definition some_outcome (r : outcome bytes) : outcome (option bytes) :=
  match r with
  | Ret p => Ret (Some p)
  | Raise e => Raise e
  end.

(** The calls [cs] served by one cipher instance of class [cls] that starts
    in state [c]: every [encrypt] and [decrypt] continues from the state
    the call before it left. *)
Fixpoint stream_calls (cls : CipherCls Cipher) (c : Cipher) (cs : list call)
    : list (outcome (option bytes)) * Cipher :=
  match cs with
  | [] => ([], c)
  | Encrypt d :: cs' =>
      let '(r, c') := cipher_encrypt cls c d in
      let '(rs, c'') := stream_calls cls c' cs' in
      (some_outcome r :: rs, c'')
  | Decrypt d :: cs' =>
      let '(r, c') := cipher_decrypt cls c d in
      let '(rs, c'') := stream_calls cls c' cs' in
      (some_outcome r :: rs, c'')
  | _ :: cs' =>
      let '(rs, c'') := stream_calls cls c cs' in
      (Ret None :: rs, c'')
  end.

(** The fields of user [v]'s object that a session only reads: the
    primary key, the port, the method, the password and the enabled flag. *)
Definition credentials (v : ref) (w : World) : Z * Z * string * string * bool :=
  (User.user_id (users w !!! v), User.port (users w !!! v),
   User.method (users w !!! v), User.password (users w !!! v),
   User.enable (users w !!! v)).

(** [keeps V c]: running [c] does not change the view [V] of the state,
    whether [c] returns or raises. *)
Definition keeps {A X} (V : CipherMan -> World -> X) (c : Py A) : Prop :=
  forall m w, V (c m w).1.2 (c m w).2 = V m w.

End CipherMan.

Arguments World {RG}.
Arguments CipherMan {CS}.
Arguments Py {CS RG} A.

(** ** A small concrete instance

    A cipher suite and a Bloom filter small enough to run the manager on
    concrete packets.  A packet is [salt (2 bytes) ++ [tag] ++ payload]; the
    tag is the first character of the password, so a packet made for one
    password fails the integrity check under a password that starts
    differently; the tag [xff] is reserved and makes a packet malformed.
    The Bloom filter has 8 bits and two hash functions, and does give false
    positives. *)
Module Toy.

Record cipher_state : Type := mkState { key : string; blocks : nat }.

Definition tag_of (pw : string) : Byte.byte :=
  match pw with
  | String a _ => Ascii.byte_of_ascii a
  | EmptyString => Byte.x00
  end.

Definition open_packet (pw : string) (d : bytes) : outcome bytes :=
  match d with
  | _ :: _ :: t :: payload =>
      if Byte.eqb t Byte.xff then Raise (ValueError ["malformed packet"])
      else if Byte.eqb t (tag_of pw) then Ret payload
      else Raise (ValueError ["MAC check failed"])
  | _ => Raise (ValueError ["packet too short"])
  end.

Definition seal_packet (pw : string) (n : nat) (d : bytes) : bytes :=
  Byte.x00 :: default Byte.xff (Byte.of_nat n) :: tag_of pw :: d.

Definition cls : CipherCls cipher_state :=
  mkCipherCls cipher_state 2 1
    (fun pw => mkState pw 0)
    (fun c d => (open_packet (key c) d, mkState (key c) (S (blocks c))))
    (fun c d => (Ret (seal_packet (key c) (blocks c) d),
                 mkState (key c) (S (blocks c))))
    (fun c d => open_packet (key c) d)
    (fun c d => Ret (seal_packet (key c) (blocks c) d)).

#[export] Instance ciphers : Ciphers :=
  {| Cipher := cipher_state; NONE := cls; AES256CFB := cls; AES128GCM := cls;
     AES256GCM := cls; CHACHA20IETFPOLY1305 := cls |}.

Definition h1 (s : bytes) : N := (N.of_nat (length s) mod 8)%N.
Definition h2 (s : bytes) : N :=
  match s with
  | b :: _ => (Byte.to_N b mod 8)%N
  | [] => 0%N
  end.

#[export] Instance bloom : BloomFilter :=
  {| BF := N;
     bf_new := 0%N;
     bf_contains s b := N.testbit b (h1 s) && N.testbit b (h2 s);
     bf_add s b := N.setbit (N.setbit b (h1 s)) (h2 s) |}.

Definition alice : User.t := User.mk 1 8388 "aes-256-gcm" "alpha" true 3 0 0 0 [].
Definition bob : User.t := User.mk 2 8388 "aes-256-gcm" "bravo" true 2 0 0 0 [].
Definition carol : User.t := User.mk 3 8388 "aes-256-gcm" "charlie" false 1 0 0 0 [].
Definition dave : User.t := User.mk 4 8389 "aes-256-gcm" "delta" true 0 0 0 0 [].

(** Objects 1, 2, 3 are the users of port 8388; object 4 is the only user
    of port 8389. *)
Definition world0 : World :=
  mkWorld bf_new
    (<[1%positive := alice]> (<[2%positive := bob]> (<[3%positive := carol]>
       (<[4%positive := dave]> ∅))))
    ∅ 0 [].

Definition list_by_port (w : World) (port : Z) : list ref :=
  if Z.eqb port 8388 then [1; 2; 3]%positive
  else if Z.eqb port 8389 then [4%positive]
  else [].

(** A packet with salt [s1 s2] for the holder of password [pw]. *)
Definition packet (s1 s2 : Byte.byte) (pw : string) (payload : bytes) : bytes :=
  s1 :: s2 :: tag_of pw :: payload.

Definition to_bravo : bytes := packet Byte.x01 Byte.x02 "bravo" [Byte.x68; Byte.x69].
Definition to_bravo_again : bytes := packet Byte.x03 Byte.x04 "bravo" [Byte.x79; Byte.x6f].
Definition to_carol : bytes := packet Byte.x05 Byte.x06 "charlie" [Byte.x68; Byte.x69].
Definition to_dave : bytes := packet Byte.x07 Byte.x08 "delta" [Byte.x68; Byte.x69].
Definition to_nobody : bytes := packet Byte.x09 Byte.x0a "zulu" [Byte.x68; Byte.x69].
Definition malformed : bytes := [Byte.x0b; Byte.x0c; Byte.xff; Byte.x68].

(** The managers [get_cipher_by_port] builds in [world0]: for port 8388
    (three candidates, unbound) and for port 8389 (one user, pre-bound). *)
Definition stream3 : CipherMan :=
  mkCipherMan [1; 2; 3]%positive None TRANSPORT_TCP None None [] None
    "aes-256-gcm" cls 5.
Definition datagram3 : CipherMan :=
  mkCipherMan [1; 2; 3]%positive None TRANSPORT_UDP None None [] None
    "aes-256-gcm" cls 3.
Definition stream1 : CipherMan :=
  mkCipherMan [4%positive] (Some 4%positive) TRANSPORT_TCP None None [] None
    "aes-256-gcm" cls 5.
Definition datagram1 : CipherMan :=
  mkCipherMan [4%positive] (Some 4%positive) TRANSPORT_UDP None None [] None
    "aes-256-gcm" cls 3.

(** [world0] with bob's ordering value raised to 4: the candidates of port
    8388 are still listed alice, bob, carol, but the best ordering value is
    no longer that of the head of the list. *)
Definition world_bob4 : World :=
  set_users (<[2%positive := User.set_access_order 4 bob]> (users world0)) world0.

(** A datagram of 13 bytes for bob, with 10 bytes of payload. *)
Definition to_bravo_long : bytes :=
  packet Byte.x0d Byte.x0e "bravo"
    [Byte.x30; Byte.x31; Byte.x32; Byte.x33; Byte.x34;
     Byte.x35; Byte.x36; Byte.x37; Byte.x38; Byte.x39].

(** A second directory: [world0] with eve, the only user of port 8390, whose
    method is none of the supported ones. *)
Definition eve : User.t := User.mk 5 8390 "rc4-md5" "echo" true 0 0 0 0 [].

Definition world1 : World :=
  set_users (<[5%positive := eve]> (users world0)) world0.

Definition list_by_port1 (w : World) (port : Z) : list ref :=
  if Z.eqb port 8390 then [5%positive] else list_by_port w port.

(** [stream1] once it has encrypted three bytes: it holds a cipher. *)
Definition stream1_open : CipherMan :=
  mkCipherMan [4%positive] (Some 4%positive) TRANSPORT_TCP
    (Some (mkState "delta" 1)) None [] None "aes-256-gcm" cls 5.

(** [datagram3] once it has identified bob from [to_bravo]: the promotion
    has narrowed its candidate query to the best candidate, alice. *)
Definition datagram3_bob : CipherMan :=
  mkCipherMan [1%positive] (Some 2%positive) TRANSPORT_UDP None
    (Some [Byte.x68; Byte.x69]) [] (Some 1%positive) "aes-256-gcm" cls 3.

End Toy.

(** * Properties *)

(** ** Frames: what a computation leaves unchanged *)

Section Frames.

Context `{CS : Ciphers} `{RG : BloomFilter}.

Context {X : Type} (V : CipherMan -> World -> X).

Lemma keeps_ret {A} (a : A) : keeps V (ret a).
Proof. intros m w. reflexivity. Qed.

Lemma keeps_raise {A} (e : exn) : keeps V (raise (A := A) e).
Proof. intros m w. reflexivity. Qed.

Lemma keeps_lift {A} (r : outcome A) : keeps V (lift r).
Proof. intros m w. reflexivity. Qed.

Lemma keeps_self : keeps V self.
Proof. intros m w. reflexivity. Qed.

Lemma keeps_world : keeps V world.
Proof. intros m w. reflexivity. Qed.

Lemma keeps_bind {A B} (c : Py A) (k : A -> Py B) :
  keeps V c -> (forall a, keeps V (k a)) -> keeps V (bind c k).
Proof.
  intros Hc Hk m w. unfold bind. specialize (Hc m w).
  destruct (c m w) as [[[a|e] m'] w']; cbn in *.
  - rewrite Hk. exact Hc.
  - exact Hc.
Qed.

Lemma keeps_try {A} (c : Py A) : keeps V c -> keeps V (try c).
Proof.
  intros Hc m w. unfold try. specialize (Hc m w).
  destruct (c m w) as [[r m'] w']. exact Hc.
Qed.

Lemma keeps_update_self (f : CipherMan -> CipherMan) :
  (forall m w, V (f m) w = V m w) -> keeps V (update_self f).
Proof. intros H m w. apply H. Qed.

Lemma keeps_update_world (f : World -> World) :
  (forall m w, V m (f w) = V m w) -> keeps V (update_world f).
Proof. intros H m w. apply H. Qed.

End Frames.

(** One step of a frame proof: follow the structure of the computation. *)
Ltac frame_step :=
  lazymatch goal with
  | |- keeps _ (bind _ _) => apply keeps_bind; [| intros ?]
  | |- keeps _ (ret _) => apply keeps_ret
  | |- keeps _ (raise _) => apply keeps_raise
  | |- keeps _ (lift _) => apply keeps_lift
  | |- keeps _ self => apply keeps_self
  | |- keeps _ world => apply keeps_world
  | |- keeps _ (try _) => apply keeps_try
  | |- keeps _ (update_self _) => apply keeps_update_self; intros ? ?
  | |- keeps _ (update_world _) => apply keeps_update_world; intros ? ?
  | |- keeps _ (emit _) => unfold emit
  | |- keeps _ (user _) => unfold user
  | |- keeps _ (update_user _ _) => unfold update_user
  | |- keeps _ (save _) => unfold save
  | |- keeps _ first => unfold first
  | |- keeps _ (len _) => unfold len
  | |- keeps _ (match ?x with _ => _ end) => destruct x
  end.

Ltac frame := repeat frame_step.

(** Unfold the operations of [Py], so a computation can be run by
    rewriting with what is known of the state. *)
Ltac py_unfold :=
  unfold save, first;
  unfold user, update_user, emit, len, lift, try;
  unfold bind, self, world, ret, raise, update_self, update_world.

(** ** The trial loop, one candidate at a time *)

Section Loop.

Context `{CS : Ciphers} `{RG : BloomFilter}.

Implicit Types (m : CipherMan) (w : World) (u : ref) (d : bytes).

Lemma trial_outcome_seed m w u v d e :
  trial_outcome (seed v m) (logged e w) u d = trial_outcome m w u d.
Proof. unfold trial_outcome, seed. destruct (last_access_user m); reflexivity. Qed.

Lemma seed_seed u v m : seed v (seed u m) = seed u m.
Proof. unfold seed. destruct (last_access_user m) eqn:E; cbn; rewrite ?E; reflexivity. Qed.

(** One iteration of the loop, by what the candidate's trial yields. *)
Lemma find_loop_cons d u us cnt m w :
  find_loop d (u :: us) cnt m w
  = match trial_outcome m w u d with
    | Ret p =>
        (Ret (S cnt), bound u p (trial_cipher m w u d) (seed u m),
         logged (Trial u d) w)
    | Raise e =>
        if mac_check_failed (Raise e)
        then find_loop d us (S cnt) (seed u m) (logged (Trial u d) w)
        else (Raise (reraised e), seed u m, logged (Trial u d) w)
    end.
Proof.
  unfold mac_check_failed, trial_outcome, trial_cipher, seed, bound.
  cbn [find_loop].
  unfold bind, self, user, world, ret, try, emit, update_world, trial,
    update_self, raise, logged.
  destruct m as [ul au ts ci fd bu la me cl fl]; cbn.
  destruct la, ts; cbn.
  all: lazymatch goal with
       | |- context [cipher_decrypt ?c ?k ?x] =>
           destruct (cipher_decrypt c k x) as [[pl|e] c']
       | |- context [cipher_unpack ?c ?k ?x] =>
           destruct (cipher_unpack c k x) as [pl|e]
       end; cbn; try reflexivity.
  all: destruct e as [r|[|a args]|t|i|a|o]; cbn; try reflexivity.
  all: destruct (String.eqb a "MAC check failed"); reflexivity.
Qed.

(** A candidate whose trial fails the integrity check is skipped. *)
Lemma find_loop_skip d u us cnt m w :
  mac_check_failed (trial_outcome m w u d) = true ->
  find_loop d (u :: us) cnt m w
  = find_loop d us (S cnt) (seed u m) (logged (Trial u d) w).
Proof.
  intros H. rewrite find_loop_cons.
  destruct (trial_outcome m w u d) as [p|e]; [discriminate|].
  rewrite H. reflexivity.
Qed.

(** Any other failure of the trial ends the loop with an exception. *)
Lemma find_loop_fatal d u us cnt m w e :
  trial_outcome m w u d = Raise e ->
  mac_check_failed (Raise e) = false ->
  find_loop d (u :: us) cnt m w
  = (Raise (reraised e), seed u m, logged (Trial u d) w).
Proof.
  intros H1 H2. rewrite find_loop_cons, H1, H2. reflexivity.
Qed.

(** A successful trial binds the session and ends the loop. *)
Lemma find_loop_hit d u us cnt m w p :
  trial_outcome m w u d = Ret p ->
  find_loop d (u :: us) cnt m w
  = (Ret (S cnt), bound u p (trial_cipher m w u d) (seed u m),
     logged (Trial u d) w).
Proof.
  intros H. rewrite find_loop_cons, H. reflexivity.
Qed.

Lemma trial_outcome_frame m m' w w' u d :
  ts_protocol m' = ts_protocol m -> cipher_cls m' = cipher_cls m ->
  users w' = users w ->
  trial_outcome m' w' u d = trial_outcome m w u d.
Proof. unfold trial_outcome. intros -> -> ->. reflexivity. Qed.

Lemma trial_cipher_frame m m' w w' u d :
  ts_protocol m' = ts_protocol m -> cipher_cls m' = cipher_cls m ->
  cipher m' = cipher m -> users w' = users w ->
  trial_cipher m' w' u d = trial_cipher m w u d.
Proof. unfold trial_cipher. intros -> -> -> ->. reflexivity. Qed.

Lemma seed_fields u m :
  ts_protocol (seed u m) = ts_protocol m /\
  cipher_cls (seed u m) = cipher_cls m /\
  cipher (seed u m) = cipher m /\
  user_list (seed u m) = user_list m /\
  access_user (seed u m) = access_user m /\
  _first_data (seed u m) = _first_data m.
Proof. unfold seed. destruct (last_access_user m); cbn; auto 10. Qed.

Lemma seeded_fields us m :
  ts_protocol (seeded us m) = ts_protocol m /\
  cipher_cls (seeded us m) = cipher_cls m /\
  cipher (seeded us m) = cipher m /\
  user_list (seeded us m) = user_list m /\
  access_user (seeded us m) = access_user m /\
  _first_data (seeded us m) = _first_data m.
Proof. destruct us; cbn; [auto 10 | apply seed_fields]. Qed.

Lemma seeded_seed u us m : seeded us (seed u m) = seed u m.
Proof. destruct us; cbn; [reflexivity | apply seed_seed]. Qed.

Lemma logged_all_nil w : logged_all [] w = w.
Proof. destruct w. reflexivity. Qed.

Lemma logged_all_logged d u us w :
  logged_all (tried d us) (logged (Trial u d) w) = logged_all (tried d (u :: us)) w.
Proof.
  unfold logged_all, logged, tried, set_log.
  cbn [log bf users directory NETWORK_TRANSMIT_BYTES map].
  rewrite reverse_cons, <- app_assoc. reflexivity.
Qed.

(** The candidates that fail the integrity check are tried one after the
    other, and the loop goes on with the rest. *)
Lemma find_loop_prefix d pre rest cnt m w :
  Forall (fun u => mac_check_failed (trial_outcome m w u d) = true) pre ->
  find_loop d (pre ++ rest) cnt m w
  = find_loop d rest (cnt + length pre) (seeded pre m)
      (logged_all (tried d pre) w).
Proof.
  intros H. revert cnt m w H.
  induction pre as [|u pre IH]; intros cnt m w H.
  - cbn. rewrite Nat.add_0_r, logged_all_nil. reflexivity.
  - apply Forall_cons in H as [Hu Hpre].
    cbn [app]. rewrite find_loop_skip by exact Hu.
    rewrite IH.
    + rewrite seeded_seed, logged_all_logged. cbn [length seeded].
      f_equal. lia.
    + eapply Forall_impl; [exact Hpre|]. intros v Hv. cbn beta.
      rewrite trial_outcome_seed. exact Hv.
Qed.

End Loop.

(** ** Identification *)

Section Identification.

Context `{CS : Ciphers} `{RG : BloomFilter}.

Implicit Types (m : CipherMan) (w : World) (u : ref) (d : bytes).

(** The world once a fresh salt has passed the Replay Guard. *)
Lemma find_access_user_replay d m w :
  bf_contains (salt_of m d) (bf w) = true ->
  _find_access_user d m w
  = (Raise (RuntimeError RepeatedSalt), m, logged (BfContains (salt_of m d)) w).
Proof.
  intros H. unfold _find_access_user, bind, self, emit, world, update_world,
    raise, salt_of in *. cbn. rewrite H. reflexivity.
Qed.

Lemma find_access_user_fresh d m w :
  bf_contains (salt_of m d) (bf w) = false ->
  _find_access_user d m w
  = match find_loop d (user_list m) 0 m
            (set_bf (bf_add (salt_of m d) (bf w))
               (logged (BfAdd (salt_of m d))
                  (logged (BfContains (salt_of m d)) w))) with
    | (Ret cnt, m', w') => (Ret tt, m', logged (LogInfo (access_user m') cnt) w')
    | (Raise e, m', w') => (Raise e, m', w')
    end.
Proof.
  intros H. unfold _find_access_user, bind, self, emit, world, update_world,
    raise, salt_of, logged in *. cbn. rewrite H. cbn.
  match goal with |- context [find_loop ?a ?b ?c ?x ?y] =>
    destruct (find_loop a b c x y) as [[[cnt|e] m'] w'] end; reflexivity.
Qed.

Lemma trials_app l1 l2 : trials (l1 ++ l2) = (trials l1 ++ trials l2)%list.
Proof.
  induction l1 as [|e l1 IH]; [reflexivity|].
  destruct e; cbn; rewrite IH; reflexivity.
Qed.

Lemma trials_tried d us : trials (tried d us) = reverse (map (fun u => (u, d)) us).
Proof.
  unfold tried. induction us as [|u us IH]; [reflexivity|].
  cbn [map]. rewrite !reverse_cons, trials_app, IH. reflexivity.
Qed.

Lemma inserted_app l1 l2 : inserted (l1 ++ l2) = (inserted l1 ++ inserted l2)%list.
Proof.
  induction l1 as [|e l1 IH]; [reflexivity|].
  destruct e; cbn; rewrite IH; reflexivity.
Qed.

Lemma inserted_tried d us : inserted (tried d us) = [].
Proof.
  unfold tried. induction us as [|u us IH]; [reflexivity|].
  cbn [map]. rewrite reverse_cons, inserted_app, IH. reflexivity.
Qed.

Lemma lookups_app l1 l2 : lookups (l1 ++ l2) = (lookups l1 ++ lookups l2)%list.
Proof.
  induction l1 as [|e l1 IH]; [reflexivity|].
  destruct e; cbn; rewrite IH; reflexivity.
Qed.

Lemma lookups_tried d us : lookups (tried d us) = [].
Proof.
  unfold tried. induction us as [|u us IH]; [reflexivity|].
  cbn [map]. rewrite reverse_cons, lookups_app, IH. reflexivity.
Qed.

(** C4: during the trial loop, a candidate whose trial fails with the
    integrity failure (["MAC check failed"]) is skipped -- the loop goes on
    with the next candidate -- and a trial failure of any other kind leaves
    the loop at once as an exception: the log gains the trial of this
    candidate and of no candidate after it. *)
Theorem trial_failure_skips_or_propagates d u us cnt m w e :
  trial_outcome m w u d = Raise e ->
  (mac_check_failed (Raise e) = true ->
   find_loop d (u :: us) cnt m w
   = find_loop d us (S cnt) (seed u m) (logged (Trial u d) w))
  /\ (mac_check_failed (Raise e) = false ->
      exists e' m' w',
        find_loop d (u :: us) cnt m w = (Raise e', m', w')
        /\ (e <> ValueError [] -> e' = e)
        /\ access_user m' = access_user m
        /\ trials (log w') = (u, d) :: trials (log w)).
Proof.
  intros He. split; intros Hm.
  - apply find_loop_skip. rewrite He. exact Hm.
  - exists (reraised e), (seed u m), (logged (Trial u d) w).
    split; [apply find_loop_fatal; assumption|].
    split; [|split].
    + intros Hne. destruct e as [r|[|a args]|t|i|a|o]; try reflexivity.
      contradiction.
    + apply seed_fields.
    + reflexivity.
Qed.

End Identification.

(** ** The first-data call *)

Section FirstData.

Context `{CS : Ciphers} `{RG : BloomFilter}.

Implicit Types (m : CipherMan) (w : World) (u : ref) (d data : bytes).

(** Below the threshold the call only buffers. *)
Lemma init_short data m w :
  (length data + length (_buffer m) < _first_data_len m)%nat ->
  _init_cipher_and_decrypt_first_data data m w
  = (Ret None, set_buffer (_buffer m ++ data) m, w).
Proof.
  intros H. apply Nat.ltb_lt in H.
  unfold _init_cipher_and_decrypt_first_data, bind, self. cbn beta iota.
  rewrite H. reflexivity.
Qed.

(** At or above the threshold the buffer is consumed, an unbound session
    is identified, and the checks follow. *)
Lemma init_enough data m w :
  (_first_data_len m <= length data + length (_buffer m))%nat ->
  _init_cipher_and_decrypt_first_data data m w
  = bind (match access_user m with
          | None => _find_access_user (_buffer m ++ data)
          | Some _ => ret tt
          end)
         (fun _ => after_identification) (set_buffer [] m) w.
Proof.
  intros H. apply Nat.ltb_ge in H.
  unfold _init_cipher_and_decrypt_first_data, after_identification.
  unfold bind at 1. unfold self at 1. cbn beta iota. rewrite H.
  reflexivity.
Qed.

(** The world once the salt [s] has passed the Replay Guard. *)
Lemma lookup_world_fields s w :
  let w1 := set_bf (bf_add s (bf w)) (logged (BfAdd s) (logged (BfContains s) w)) in
  users w1 = users w /\ directory w1 = directory w
  /\ NETWORK_TRANSMIT_BYTES w1 = NETWORK_TRANSMIT_BYTES w
  /\ log w1 = BfAdd s :: BfContains s :: log w.
Proof. cbn. auto. Qed.

Lemma seed_seeded u pre post m :
  seed u (seeded pre m) = seeded (pre ++ u :: post) m.
Proof. destruct pre; cbn; [reflexivity | apply seed_seed]. Qed.


(** Identification when [u] is the first candidate that decrypts the blob. *)
Lemma find_access_user_hit d m w pre u post p :
  bf_contains (salt_of m d) (bf w) = false ->
  user_list m = (pre ++ u :: post)%list ->
  Forall (fun v => mac_check_failed (trial_outcome m w v d) = true) pre ->
  trial_outcome m w u d = Ret p ->
  _find_access_user d m w
  = (Ret tt, bound u p (trial_cipher m w u d) (seeded (user_list m) m),
     logged (LogInfo (Some u) (S (length pre)))
       (logged (Trial u d)
          (logged_all (tried d pre)
             (set_bf (bf_add (salt_of m d) (bf w))
                (logged (BfAdd (salt_of m d))
                   (logged (BfContains (salt_of m d)) w)))))).
Proof.
  intros Hs Hl Hpre Hu. rewrite find_access_user_fresh by exact Hs.
  rewrite Hl. rewrite find_loop_prefix.
  - destruct (seeded_fields pre m) as (Hts & Hcl & Hci & _).
    erewrite find_loop_hit.
    2:{ erewrite trial_outcome_frame; [exact Hu|assumption|assumption|reflexivity]. }
    rewrite (trial_cipher_frame m (seeded pre m) w) by (assumption || reflexivity).
    rewrite (seed_seeded u pre post). cbn. reflexivity.
  - eapply Forall_impl; [exact Hpre|]. intros v Hv. cbn beta.
    erewrite trial_outcome_frame; [exact Hv|reflexivity..].
Qed.

(** A session without a persisted cipher decrypts on the first-data path. *)
Lemma decrypt_without_cipher data m w :
  cipher m = None -> decrypt data m w = first_data_path data m w.
Proof.
  intros H. unfold decrypt. unfold bind at 1. unfold self at 1.
  cbn beta iota. rewrite H. reflexivity.
Qed.

Lemma first_data_path_raise data m w e m' w' :
  _init_cipher_and_decrypt_first_data data m w = (Raise e, m', w') ->
  first_data_path data m w = (Raise e, m', w').
Proof. intros H. unfold first_data_path, bind. rewrite H. reflexivity. Qed.


(** The checks after identification, case by case. *)
Lemma after_identification_unbound m w :
  access_user m = None ->
  after_identification m w = (Raise (RuntimeError NoValidUser), m, w).
Proof.
  intros H. unfold after_identification, bind, self, raise.
  cbn beta iota. rewrite H. reflexivity.
Qed.

Lemma after_identification_disabled m w u :
  access_user m = Some u ->
  User.enable (users w !!! u) = false ->
  after_identification m w = (Raise (RuntimeError (UserDisabled u)), m, w).
Proof.
  intros H1 H2. unfold after_identification. py_unfold.
  cbn beta iota. rewrite H1. cbn beta iota. rewrite H2. reflexivity.
Qed.

Lemma after_identification_unseeded m w u :
  access_user m = Some u ->
  User.enable (users w !!! u) = true ->
  last_access_user m = None ->
  after_identification m w = (Ret (_first_data m), m, w).
Proof.
  intros H1 H2 H3. unfold after_identification. py_unfold.
  cbn beta iota. rewrite H1. cbn beta iota. rewrite H2. cbn [negb].
  rewrite H3. reflexivity.
Qed.

Lemma after_identification_same m w u l :
  access_user m = Some u ->
  User.enable (users w !!! u) = true ->
  last_access_user m = Some l ->
  User.ne (users w !!! u) (users w !!! l) = false ->
  after_identification m w = (Ret (_first_data m), m, w).
Proof.
  intros H1 H2 H3 H4. unfold after_identification. py_unfold.
  cbn beta iota. rewrite H1. cbn beta iota. rewrite H2. cbn [negb].
  rewrite H3. cbn beta iota. rewrite H4. reflexivity.
Qed.

Lemma after_identification_promote m w u l f :
  access_user m = Some u ->
  User.enable (users w !!! u) = true ->
  last_access_user m = Some l ->
  User.ne (users w !!! u) (users w !!! l) = true ->
  best w (user_list m) = Some f ->
  after_identification m w
  = (Ret (_first_data m), set_user_list [f] m, promote u f w).
Proof.
  intros H1 H2 H3 H4 H5. unfold after_identification, promote, logged.
  py_unfold. cbn beta iota. rewrite H1. cbn beta iota. rewrite H2. cbn [negb].
  rewrite H3. cbn beta iota. rewrite H4. cbn beta iota zeta. rewrite H5.
  cbn beta iota.
  cbn [users set_users set_log set_directory directory log bf
       NETWORK_TRANSMIT_BYTES option_list _first_data set_user_list].
  rewrite lookup_total_insert_eq. reflexivity.
Qed.

Lemma record_user_traffic_eq n m w :
  _record_user_traffic n m w = (Ret tt, m, account n m w).
Proof.
  unfold _record_user_traffic, account. py_unfold. cbn beta iota.
  destruct (access_user m); reflexivity.
Qed.

Lemma first_data_path_ret data m w p m' w' :
  _init_cipher_and_decrypt_first_data data m w = (Ret (Some p), m', w') ->
  first_data_path data m w = (Ret (Some p), m', account (length p) m' w').
Proof.
  intros H. unfold first_data_path. unfold bind at 1. rewrite H.
  unfold bind, len, ret. rewrite record_user_traffic_eq. reflexivity.
Qed.

(** [len(None)]: the first-data path raises [TypeError] when
    [_init_cipher_and_decrypt_first_data] returns [None]. *)
Lemma first_data_path_none data m w m' w' :
  _init_cipher_and_decrypt_first_data data m w = (Ret None, m', w') ->
  first_data_path data m w
  = (Raise (TypeError "object of type 'NoneType' has no len()"), m', w').
Proof.
  intros H. unfold first_data_path. unfold bind at 1. rewrite H. reflexivity.
Qed.

Lemma seeded_last f us m :
  last_access_user m = None ->
  last_access_user (seeded (f :: us) m) = Some f.
Proof. intros H. cbn. unfold seed. rewrite H. reflexivity. Qed.

(** The state an unbound session is in when identification has matched
    [u], the first candidate of [pre ++ u :: post] that decrypts the blob. *)
Lemma init_identified data m w pre u post p :
  access_user m = None ->
  (_first_data_len m <= length data + length (_buffer m))%nat ->
  bf_contains (salt_of m (_buffer m ++ data)) (bf w) = false ->
  user_list m = (pre ++ u :: post)%list ->
  Forall (fun v =>
            mac_check_failed (trial_outcome m w v (_buffer m ++ data)) = true)
         pre ->
  trial_outcome m w u (_buffer m ++ data) = Ret p ->
  exists mb wb,
    _init_cipher_and_decrypt_first_data data m w = after_identification mb wb
    /\ access_user mb = Some u
    /\ _first_data mb = Some p
    /\ user_list mb = user_list m
    /\ ts_protocol mb = ts_protocol m
    /\ last_access_user mb = last_access_user (seeded (user_list m) m)
    /\ users wb = users w
    /\ directory wb = directory w
    /\ NETWORK_TRANSMIT_BYTES wb = NETWORK_TRANSMIT_BYTES w.
Proof.
  intros Hau Hlen Hs Hl Hpre Hu.
  rewrite init_enough by exact Hlen. rewrite Hau. unfold bind at 1.
  rewrite (find_access_user_hit (_buffer m ++ data) (set_buffer [] m) w pre u post p);
    [| exact Hs | exact Hl | | ].
  - eexists _, _. split; [reflexivity|].
    cbn [bound access_user _first_data user_list ts_protocol last_access_user
         set_access_user set_cipher set_first_data].
    destruct (seeded_fields (user_list (set_buffer [] m)) (set_buffer [] m))
      as (Hts & _ & _ & Hul & _ & _).
    cbn [user_list set_buffer] in *.
    repeat split; try assumption; try reflexivity.
    rewrite Hl. destruct pre; cbn; unfold seed; cbn;
      destruct (last_access_user m); reflexivity.
  - eapply Forall_impl; [exact Hpre|]. intros v Hv. cbn beta.
    erewrite trial_outcome_frame; [exact Hv|reflexivity..].
  - erewrite trial_outcome_frame; [exact Hu|reflexivity..].
Qed.

End FirstData.

(** ** Authorization and promotion *)

Section Authorization.

Context `{CS : Ciphers} `{RG : BloomFilter}.

Implicit Types (m : CipherMan) (w : World) (u : ref) (d data : bytes).

(** C6: when identification matches a candidate [u] -- the first of the
    candidates to decrypt the blob -- whose [enable] flag is false, the
    first-data call, and [decrypt] with it, raises the Disabled-user error:
    the caller gets no plaintext, although the session holds it in
    [_first_data] and is bound to [u]. *)
Theorem disabled_user_is_refused data m w pre u post p :
  access_user m = None ->
  cipher m = None ->
  (_first_data_len m <= length data + length (_buffer m))%nat ->
  bf_contains (salt_of m (_buffer m ++ data)) (bf w) = false ->
  user_list m = (pre ++ u :: post)%list ->
  Forall (fun v =>
            mac_check_failed (trial_outcome m w v (_buffer m ++ data)) = true)
         pre ->
  trial_outcome m w u (_buffer m ++ data) = Ret p ->
  User.enable (users w !!! u) = false ->
  exists m' w',
    _init_cipher_and_decrypt_first_data data m w
    = (Raise (RuntimeError (UserDisabled u)), m', w')
    /\ decrypt data m w = (Raise (RuntimeError (UserDisabled u)), m', w')
    /\ access_user m' = Some u
    /\ _first_data m' = Some p.
Proof.
  intros Hau Hci Hlen Hs Hl Hpre Hu Hen.
  destruct (init_identified data m w pre u post p Hau Hlen Hs Hl Hpre Hu)
    as (mb & wb & Heq & Hb & Hfd & _ & _ & _ & Hus & _).
  assert (Hinit : _init_cipher_and_decrypt_first_data data m w
                  = (Raise (RuntimeError (UserDisabled u)), mb, wb)).
  { rewrite Heq. apply after_identification_disabled; [exact Hb|].
    rewrite Hus. exact Hen. }
  exists mb, wb. split; [exact Hinit|]. split; [|split; assumption].
  rewrite decrypt_without_cipher by exact Hci.
  apply first_data_path_raise. exact Hinit.
Qed.

Lemma best_ext w w' us : users w' = users w -> best w' us = best w us.
Proof.
  intros H. induction us as [|v us IH]; [reflexivity|].
  cbn [best]. rewrite IH, H. reflexivity.
Qed.

Lemma best_cons w v us : exists b, best w (v :: us) = Some b.
Proof.
  cbn [best]. destruct (best w us) as [b|]; [|eauto].
  destruct (_ <=? _); eauto.
Qed.

(** What [first()] returns is a candidate, and no candidate has a better
    ordering value. *)
Lemma best_spec w us b :
  best w us = Some b ->
  In b us
  /\ forall v, In v us ->
       User.access_order (users w !!! v) <= User.access_order (users w !!! b).
Proof.
  revert b. induction us as [|x us IH]; intros b; [discriminate|].
  cbn [best]. destruct (best w us) as [b0|] eqn:Hb.
  - destruct (IH b0 eq_refl) as [Hin Hmax].
    destruct (Z.leb_spec (User.access_order (users w !!! b0))
                (User.access_order (users w !!! x))) as [Hle|Hlt];
      intros [= <-].
    + split; [left; reflexivity|]. intros v [<-|Hv]; [lia|].
      specialize (Hmax v Hv). lia.
    + split; [right; exact Hin|]. intros v [<-|Hv]; [lia|].
      apply Hmax, Hv.
  - intros [= <-]. split; [left; reflexivity|].
    destruct us as [|y us]; [|destruct (best_cons w y us); congruence].
    intros v [<-|[]]. lia.
Qed.

(** C7: after the identification of an enabled user [u] in a fresh session
    ([last_access_user] is seeded to [l], the first candidate iterated): if
    [u != l], [u]'s [access_order] becomes one more than the best ordering
    value any candidate holds at that moment -- so it is above every
    candidate's -- the object is saved to the directory, and no other user
    changes; if [u] equals [l], no user and no row changes. *)
Theorem matched_user_is_promoted data m w pre u post p l :
  access_user m = None ->
  last_access_user m = None ->
  (_first_data_len m <= length data + length (_buffer m))%nat ->
  bf_contains (salt_of m (_buffer m ++ data)) (bf w) = false ->
  user_list m = (pre ++ u :: post)%list ->
  head (user_list m) = Some l ->
  Forall (fun v =>
            mac_check_failed (trial_outcome m w v (_buffer m ++ data)) = true)
         pre ->
  trial_outcome m w u (_buffer m ++ data) = Ret p ->
  User.enable (users w !!! u) = true ->
  exists m' w',
    _init_cipher_and_decrypt_first_data data m w = (Ret (Some p), m', w')
    /\ access_user m' = Some u
    /\ last_access_user m' = Some l
    /\ (User.ne (users w !!! u) (users w !!! l) = true ->
        (exists b,
            In b (user_list m)
            /\ (forall v, In v (user_list m) ->
                   User.access_order (users w !!! v)
                   <= User.access_order (users w !!! b))
            /\ users w' !!! u
               = User.set_access_order (User.access_order (users w !!! b) + 1)
                   (users w !!! u))
        /\ (forall v, In v (user_list m) ->
              User.access_order (users w !!! v)
              < User.access_order (users w' !!! u))
        /\ directory w' !! User.user_id (users w !!! u) = Some (users w' !!! u)
        /\ In (UserSave u) (log w')
        /\ (forall v, v <> u -> users w' !!! v = users w !!! v))
    /\ (User.ne (users w !!! u) (users w !!! l) = false ->
        users w' = users w /\ directory w' = directory w).
Proof.
  intros Hau Hla Hlen Hs Hl Hf Hpre Hu Hen.
  destruct (init_identified data m w pre u post p Hau Hlen Hs Hl Hpre Hu)
    as (mb & wb & Heq & Hb & Hfd & Hul & _ & Hlb & Hus & Hdir & _).
  assert (Hlast : last_access_user mb = Some l).
  { rewrite Hlb. destruct (user_list m) as [|l' us]; [discriminate|].
    cbn in Hf. injection Hf as ->. apply seeded_last. exact Hla. }
  assert (Hen' : User.enable (users wb !!! u) = true) by (rewrite Hus; exact Hen).
  destruct (User.ne (users w !!! u) (users w !!! l)) eqn:Hne.
  - assert (Hbest : exists b, best wb (user_list mb) = Some b).
    { rewrite Hul, Hl. destruct pre; apply best_cons. }
    destruct Hbest as [b Hbest].
    pose proof Hbest as Hbw. rewrite (best_ext w wb _ Hus), Hul in Hbw.
    destruct (best_spec w (user_list m) b Hbw) as [Hin Hmax].
    exists (set_user_list [b] mb), (promote u b wb). split.
    { rewrite Heq, <- Hfd.
      apply (after_identification_promote mb wb u l b); try assumption.
      rewrite Hus. exact Hne. }
    split; [exact Hb|]. split; [exact Hlast|]. split; [|discriminate].
    intros _. unfold promote.
    cbn [users directory log set_directory set_users logged set_log].
    rewrite Hus, Hdir, lookup_total_insert_eq.
    split; [exists b; auto|]. split.
    { intros v Hv. specialize (Hmax v Hv).
      cbn [User.set_access_order User.access_order]. lia. }
    split.
    { cbn [User.set_access_order User.user_id]. apply lookup_insert_eq. }
    split; [left; reflexivity|].
    intros v Hv. apply lookup_total_insert_ne. congruence.
  - exists mb, wb. split.
    { rewrite Heq, <- Hfd.
      apply (after_identification_same mb wb u l); try assumption.
      rewrite Hus. exact Hne. }
    split; [exact Hb|]. split; [exact Hlast|]. split; [discriminate|].
    intros _. split; assumption.
Qed.

End Authorization.

(** ** The Replay Guard across the process *)

Section ReplayGuard.

Context `{CS : Ciphers} `{RG : BloomFilter}.

Implicit Types (m : CipherMan) (w : World) (u : ref) (d data : bytes).

Lemma find_loop_guard d us cnt : keeps (fun _ => guard) (find_loop d us cnt).
Proof.
  revert cnt. induction us as [|u us IH]; intros cnt; cbn [find_loop].
  - frame.
  - frame; try reflexivity; try apply IH.
    all: unfold trial; frame; reflexivity.
Qed.

Lemma after_identification_guard : keeps (fun _ => guard) after_identification.
Proof. unfold after_identification. frame; reflexivity. Qed.

Lemma record_user_traffic_guard n :
  keeps (fun _ => guard) (_record_user_traffic n).
Proof. unfold _record_user_traffic. frame; reflexivity. Qed.

Lemma encrypt_guard d : keeps (fun _ => guard) (encrypt d).
Proof.
  unfold encrypt, new_cipher_of_access_user.
  frame; try reflexivity; apply record_user_traffic_guard.
Qed.

Lemma guard_step_refl w : guard_step w w.
Proof. left. reflexivity. Qed.

Lemma guard_step_keeps w w' w'' :
  guard_step w w' -> guard w'' = guard w' -> guard_step w w''.
Proof.
  intros [H|(s & H1 & H2 & H3)] E; [left; congruence|].
  right. exists s. unfold guard in E. injection E as E1 E2.
  repeat split; congruence.
Qed.

Lemma find_access_user_guard_step d m w :
  guard_step w (_find_access_user d m w).2.
Proof.
  destruct (bf_contains (salt_of m d) (bf w)) eqn:Hs.
  - rewrite find_access_user_replay by exact Hs. left. reflexivity.
  - rewrite find_access_user_fresh by exact Hs.
    match goal with |- context [find_loop ?a ?b ?c ?x ?y] =>
      pose proof (find_loop_guard a b c x y) as Hg;
      destruct (find_loop a b c x y) as [[[cnt|e] m'] w'] end;
      cbn [fst snd] in *; right; exists (salt_of m d);
      unfold guard in Hg; cbn in Hg; injection Hg as Hb Hi;
      (split; [exact Hs|split; [exact Hb|exact Hi]]).
Qed.

Lemma init_guard_step data m w :
  guard_step w (_init_cipher_and_decrypt_first_data data m w).2.
Proof.
  destruct (Nat.lt_ge_cases (length data + length (_buffer m)) (_first_data_len m))
    as [Hlt|Hge].
  - rewrite init_short by exact Hlt. apply guard_step_refl.
  - rewrite init_enough by exact Hge. unfold bind.
    destruct (access_user m).
    + cbn [ret]. apply guard_step_keeps with (w' := w);
        [apply guard_step_refl | apply after_identification_guard].
    + pose proof (find_access_user_guard_step (_buffer m ++ data)
                    (set_buffer [] m) w) as Hf.
      destruct (_find_access_user (_buffer m ++ data) (set_buffer [] m) w)
        as [[[[]|e] m'] w']; cbn [snd] in *; [|exact Hf].
      eapply guard_step_keeps; [exact Hf|apply after_identification_guard].
Qed.

Lemma decrypt_guard_step data m w : guard_step w (decrypt data m w).2.
Proof.
  unfold decrypt. unfold bind at 1. unfold self at 1. cbn beta iota.
  destruct (cipher m) as [c|].
  - apply guard_step_keeps with (w' := w); [apply guard_step_refl|].
    match goal with |- guard (?c m w).2 = _ =>
      assert (keeps (fun _ => guard) c) as Hk end.
    { frame; try reflexivity. apply record_user_traffic_guard. }
    apply Hk.
  - unfold bind at 1.
    pose proof (init_guard_step data m w) as Hi.
    destruct (_init_cipher_and_decrypt_first_data data m w)
      as [[[o|e] m'] w']; cbn [snd] in *; [|exact Hi].
    eapply guard_step_keeps; [exact Hi|].
    match goal with |- guard (?c m' w').2 = _ =>
      assert (keeps (fun _ => guard) c) as Hk end.
    { frame; try reflexivity. apply record_user_traffic_guard. }
    apply Hk.
Qed.

Lemma world_step_guard_step w w' : world_step w w' -> guard_step w w'.
Proof.
  intros [m c w0|m d w0|m d w0].
  - destruct c as [d|d|n|peer]; cbn [run_call].
    + apply guard_step_keeps with (w' := w0); [apply guard_step_refl|].
      match goal with |- guard (?c m w0).2 = _ =>
        assert (keeps (fun _ => guard) c) as Hk end.
      { frame. apply encrypt_guard. }
      apply Hk.
    + apply decrypt_guard_step.
    + apply guard_step_keeps with (w' := w0); [apply guard_step_refl|].
      match goal with |- guard (?c m w0).2 = _ =>
        assert (keeps (fun _ => guard) c) as Hk end.
      { unfold incr_user_tcp_num. frame; reflexivity. }
      apply Hk.
    + apply guard_step_keeps with (w' := w0); [apply guard_step_refl|].
      match goal with |- guard (?c m w0).2 = _ =>
        assert (keeps (fun _ => guard) c) as Hk end.
      { unfold record_user_ip. frame; reflexivity. }
      apply Hk.
  - apply find_access_user_guard_step.
  - apply init_guard_step.
Qed.

End ReplayGuard.

Section ReplaySafety.

Context `{CS : Ciphers} `{RG : BloomFilter} {SND : BloomFilterSound}.

Implicit Types (m : CipherMan) (w : World) (u : ref) (d data : bytes).

Lemma guard_step_mono w w' s :
  guard_step w w' ->
  bf_contains s (bf w) = true -> bf_contains s (bf w') = true.
Proof.
  intros [H|(t & _ & Hb & _)] Hs.
  - unfold guard in H. injection H as -> _. exact Hs.
  - rewrite Hb. apply bf_contains_mono. exact Hs.
Qed.

Lemma guard_step_ok w w' : guard_step w w' -> guard_ok w -> guard_ok w'.
Proof.
  intros [H|(s & Hs & Hb & Hi)] [Hnd Hin].
  - unfold guard in H. injection H as Hb Hi. unfold guard_ok.
    rewrite Hb, Hi. split; assumption.
  - unfold guard_ok. rewrite Hb, Hi. split.
    + constructor; [|exact Hnd]. intros Hmem.
      apply list_elem_of_In, Hin in Hmem. congruence.
    + intros t [<-|Ht].
      * apply bf_contains_add.
      * apply bf_contains_mono, Hin, Ht.
Qed.

Lemma later_mono w w' s :
  later w w' -> bf_contains s (bf w) = true -> bf_contains s (bf w') = true.
Proof.
  induction 1 as [|w1 w2 w3 Hstep _ IH]; [tauto|].
  intros Hs. apply IH. eapply guard_step_mono; [|exact Hs].
  apply world_step_guard_step. exact Hstep.
Qed.

Lemma later_ok w w' : later w w' -> guard_ok w -> guard_ok w'.
Proof.
  induction 1 as [|w1 w2 w3 Hstep _ IH]; [tauto|].
  intros Hok. apply IH. eapply guard_step_ok; [|exact Hok].
  apply world_step_guard_step. exact Hstep.
Qed.

(** The Replay Guard contains the salt of every blob identification has
    processed, whether identification succeeded, failed or raised. *)
Lemma find_access_user_burns_salt d m w :
  bf_contains (salt_of m d) (bf (_find_access_user d m w).2) = true.
Proof.
  destruct (bf_contains (salt_of m d) (bf w)) eqn:Hs.
  - rewrite find_access_user_replay by exact Hs. exact Hs.
  - rewrite find_access_user_fresh by exact Hs.
    match goal with |- context [find_loop ?a ?b ?c ?x ?y] =>
      pose proof (find_loop_guard a b c x y) as Hg;
      destruct (find_loop a b c x y) as [[[cnt|e] m'] w'] end;
      cbn [fst snd] in *; unfold guard in Hg; cbn in Hg;
      injection Hg as Hb _; cbn [bf logged set_log]; rewrite Hb;
      apply bf_contains_add.
Qed.

(** C1: once [_find_access_user] has processed a blob with salt [s] (in any
    session [m1], with any result), every later identification (in any
    session [m2], after any number of calls of any sessions) of a blob with
    the same salt raises the replay error right after the Replay Guard
    lookup: no trial decryption, no insertion.  And in a process that
    started with an empty log, no salt is inserted twice. *)
Theorem replayed_salt_is_rejected :
  (forall m1 d1 w0 w m2 d2,
     later (_find_access_user d1 m1 w0).2 w ->
     salt_of m2 d2 = salt_of m1 d1 ->
     _find_access_user d2 m2 w
     = (Raise (RuntimeError RepeatedSalt), m2,
        logged (BfContains (salt_of m2 d2)) w)
     /\ trials (log (_find_access_user d2 m2 w).2) = trials (log w)
     /\ inserted (log (_find_access_user d2 m2 w).2) = inserted (log w)
     /\ bf (_find_access_user d2 m2 w).2 = bf w)
  /\ (forall w0 w,
        log w0 = [] -> later w0 w -> NoDup (inserted (log w))).
Proof.
  split.
  - intros m1 d1 w0 w m2 d2 Hl Hs.
    assert (Hc : bf_contains (salt_of m2 d2) (bf w) = true).
    { rewrite Hs. eapply later_mono; [exact Hl|].
      apply find_access_user_burns_salt. }
    rewrite find_access_user_replay by exact Hc. repeat split.
  - intros w0 w H0 Hl.
    apply (later_ok w0 w Hl). unfold guard_ok. rewrite H0. split.
    + constructor.
    + intros s [].
Qed.

End ReplaySafety.

(** ** Sessions *)

Section Sessions.

Context `{CS : Ciphers} `{RG : BloomFilter}.

Implicit Types (m : CipherMan) (w : World) (u : ref) (d data : bytes).

(** *** What the methods leave unchanged *)

Lemma traffic_update_user (f : User.t -> User.t) u u0 w :
  (forall o, User.upload_traffic (f o) = User.upload_traffic o
             /\ User.download_traffic (f o) = User.download_traffic o) ->
  traffic u (set_users (<[u0 := f (users w !!! u0)]> (users w)) w) = traffic u w.
Proof.
  intros Hf. unfold traffic. cbn [users set_users NETWORK_TRANSMIT_BYTES].
  destruct (decide (u0 = u)) as [->|Hne].
  - rewrite lookup_total_insert_eq. destruct (Hf (users w !!! u)) as [-> ->].
    reflexivity.
  - rewrite lookup_total_insert_ne by exact Hne. reflexivity.
Qed.

Lemma after_identification_self :
  keeps (fun m _ => but_user_list m) after_identification.
Proof. unfold after_identification. frame; reflexivity. Qed.

Lemma after_identification_access_user :
  keeps (fun m _ => access_user m) after_identification.
Proof. unfold after_identification. frame; reflexivity. Qed.

Lemma after_identification_identification :
  keeps (fun _ => identification) after_identification.
Proof. unfold after_identification. frame; reflexivity. Qed.

Lemma after_identification_traffic u :
  keeps (fun _ => traffic u) after_identification.
Proof.
  unfold after_identification. frame; try reflexivity.
  apply traffic_update_user. intros o. split; reflexivity.
Qed.

Lemma find_loop_traffic u d us cnt :
  keeps (fun _ => traffic u) (find_loop d us cnt).
Proof.
  revert cnt. induction us as [|v us IH]; intros cnt; cbn [find_loop].
  - frame.
  - frame; try reflexivity; try apply IH.
    all: unfold trial; frame; reflexivity.
Qed.

Lemma init_traffic u data :
  keeps (fun _ => traffic u) (_init_cipher_and_decrypt_first_data data).
Proof.
  unfold _init_cipher_and_decrypt_first_data, _find_access_user.
  frame; try reflexivity; try apply find_loop_traffic.
  all: apply traffic_update_user; intros o; split; reflexivity.
Qed.

Lemma trial_datagram_cipher c u d :
  keeps (fun m _ => datagram_cipher m) (trial c u d).
Proof.
  intros m w. unfold trial. py_unfold. unfold datagram_cipher.
  destruct m as [ul au ts ci fd bu la me cl fl]. destruct ts; cbn.
  - destruct (cipher_decrypt cl c d) as [[p|e] c']; reflexivity.
  - destruct (cipher_unpack cl c d) as [p|e]; reflexivity.
Qed.

Lemma find_loop_datagram_cipher d us cnt :
  keeps (fun m _ => datagram_cipher m) (find_loop d us cnt).
Proof.
  revert cnt. induction us as [|v us IH]; intros cnt; cbn [find_loop].
  - frame.
  - frame; try reflexivity; try apply IH.
    all: apply trial_datagram_cipher.
Qed.

Lemma first_data_path_datagram_cipher data :
  keeps (fun m _ => datagram_cipher m) (first_data_path data).
Proof.
  unfold first_data_path, _init_cipher_and_decrypt_first_data,
    _find_access_user, _record_user_traffic.
  frame; try reflexivity; apply find_loop_datagram_cipher.
Qed.

(** *** The calls of a bound session *)

Lemma init_bound data m w u :
  access_user m = Some u ->
  _init_cipher_and_decrypt_first_data data m w
  = if (length data + length (_buffer m) <? _first_data_len m)%nat
    then (Ret None, set_buffer (_buffer m ++ data) m, w)
    else after_identification (set_buffer [] m) w.
Proof.
  intros Hau.
  destruct (Nat.ltb_spec (length data + length (_buffer m)) (_first_data_len m))
    as [Hlt|Hge].
  - apply init_short. exact Hlt.
  - rewrite init_enough by exact Hge. rewrite Hau. reflexivity.
Qed.

Lemma init_bound_keeps data m w u :
  access_user m = Some u ->
  access_user (_init_cipher_and_decrypt_first_data data m w).1.2 = Some u
  /\ identification (_init_cipher_and_decrypt_first_data data m w).2
     = identification w.
Proof.
  intros Hau. rewrite (init_bound data m w u Hau).
  destruct (_ <? _)%nat.
  - split; [exact Hau|reflexivity].
  - rewrite (after_identification_access_user (set_buffer [] m) w).
    split; [exact Hau|apply after_identification_identification].
Qed.

Lemma bind_record_user_traffic {B} n (k : unit -> Py B) m w :
  bind (_record_user_traffic n) k m w = k tt m (account n m w).
Proof. unfold bind. rewrite record_user_traffic_eq. reflexivity. Qed.

Lemma encrypt_account d m w :
  (encrypt d m w).2 = account (length d) m w
  /\ access_user (encrypt d m w).1.2 = access_user m.
Proof.
  unfold encrypt. rewrite bind_record_user_traffic.
  match goal with |- (?c m ?w1).2 = _ /\ _ =>
    assert (keeps (fun m w => (access_user m, w)) c) as Hk end.
  { unfold new_cipher_of_access_user. frame; reflexivity. }
  specialize (Hk m (account (length d) m w)). cbn beta in Hk.
  split; [exact (f_equal snd Hk) | exact (f_equal fst Hk)].
Qed.

Lemma decrypt_persisted d m w c :
  cipher m = Some c ->
  (decrypt d m w).2 = account (length d) m w
  /\ access_user (decrypt d m w).1.2 = access_user m.
Proof.
  intros Hc.
  assert (E : decrypt d m w
    = bind (_record_user_traffic (length d))
        (fun _ => let '(r, c') := cipher_decrypt (cipher_cls m) c d in
           bind (update_self (set_cipher (Some c')))
             (fun _ => bind (lift r) (fun p => ret (Some p)))) m w).
  { unfold decrypt. unfold bind at 1. unfold self at 1. cbn beta iota.
    rewrite Hc. reflexivity. }
  rewrite E, bind_record_user_traffic.
  destruct (cipher_decrypt (cipher_cls m) c d) as [[p|e] c'];
    split; reflexivity.
Qed.

Lemma account_identification n m w :
  identification (account n m w) = identification w.
Proof. unfold account. destruct (access_user m); reflexivity. Qed.

Lemma account_traffic n m w u :
  access_user m = Some u ->
  traffic u (account n m w)
  = (User.upload_traffic (users w !!! u) + Z.of_nat n,
     User.download_traffic (users w !!! u) + Z.of_nat n,
     NETWORK_TRANSMIT_BYTES w + Z.of_nat n).
Proof.
  intros H. unfold account, traffic. rewrite H.
  cbn [users set_users set_NETWORK_TRANSMIT_BYTES NETWORK_TRANSMIT_BYTES].
  rewrite lookup_total_insert_eq. reflexivity.
Qed.

(** One call of a session bound to [u]: the session stays bound to [u],
    identification is not touched, and the counters grow by the call's
    byte count. *)
Lemma run_call_bound c m w u :
  access_user m = Some u ->
  access_user (run_call c m w).1.2 = Some u
  /\ identification (run_call c m w).2 = identification w
  /\ traffic u (run_call c m w).2
     = (User.upload_traffic (users w !!! u)
        + Z.of_nat (transferred c m (run_call c m w).1.1),
        User.download_traffic (users w !!! u)
        + Z.of_nat (transferred c m (run_call c m w).1.1),
        NETWORK_TRANSMIT_BYTES w
        + Z.of_nat (transferred c m (run_call c m w).1.1)).
Proof.
  intros Hau. destruct c as [d|d|n|peer]; cbn [run_call transferred].
  - destruct (encrypt_account d m w) as [Hw Hm]. unfold bind.
    destruct (encrypt d m w) as [[[p|e] m'] w']; cbn [fst snd ret] in *;
      subst w'; rewrite Hm, account_identification,
        (account_traffic _ _ _ u Hau); auto.
  - destruct (cipher m) as [c|] eqn:Hc.
    + destruct (decrypt_persisted d m w c Hc) as [Hw Hm].
      rewrite Hw, Hm, account_identification, (account_traffic _ _ _ u Hau).
      auto.
    + rewrite decrypt_without_cipher by exact Hc.
      destruct (init_bound_keeps d m w u Hau) as [Hb Hi].
      pose proof (init_traffic u d m w) as Ht. cbn beta in Ht.
      destruct (_init_cipher_and_decrypt_first_data d m w)
        as [[[[p|]|e] m'] w'] eqn:Hinit; cbn [fst snd] in *.
      * rewrite (first_data_path_ret _ _ _ _ _ _ Hinit). cbn [fst snd].
        rewrite account_identification, (account_traffic _ _ _ u Hb).
        unfold traffic in Ht. injection Ht as -> -> ->. auto.
      * rewrite (first_data_path_none _ _ _ _ _ Hinit). cbn [fst snd].
        rewrite Ht. unfold traffic. rewrite !Z.add_0_r. auto.
      * rewrite (first_data_path_raise _ _ _ _ _ _ Hinit). cbn [fst snd].
        rewrite Ht. unfold traffic. rewrite !Z.add_0_r. auto.
  - unfold incr_user_tcp_num. py_unfold. cbn beta iota. rewrite Hau.
    cbn [fst snd]. split; [exact Hau|]. split; [reflexivity|].
    rewrite !Z.add_0_r. apply (traffic_update_user (User.incr_tcp_conn_num n)).
    intros o. split; reflexivity.
  - unfold record_user_ip. py_unfold. cbn beta iota. rewrite Hau.
    cbn [fst snd]. split; [exact Hau|]. split; [reflexivity|].
    rewrite !Z.add_0_r. apply (traffic_update_user (User.record_ip peer)).
    intros o. split; reflexivity.
Qed.

Lemma run_calls_cons c cs m w :
  run_calls (c :: cs) m w
  = ((run_call c m w).1.1
       :: (run_calls cs (run_call c m w).1.2 (run_call c m w).2).1.1,
     (run_calls cs (run_call c m w).1.2 (run_call c m w).2).1.2,
     (run_calls cs (run_call c m w).1.2 (run_call c m w).2).2).
Proof.
  cbn [run_calls]. destruct (run_call c m w) as [[r m'] w']. cbn [fst snd].
  destruct (run_calls cs m' w') as [[rs m''] w'']. reflexivity.
Qed.

Lemma byte_counts_cons c cs m w :
  byte_counts (c :: cs) m w
  = transferred c m (run_call c m w).1.1
      :: byte_counts cs (run_call c m w).1.2 (run_call c m w).2.
Proof.
  cbn [byte_counts]. destruct (run_call c m w) as [[r m'] w']. reflexivity.
Qed.

Lemma sum_cons n l : sum (n :: l) = Z.of_nat n + sum l.
Proof. unfold sum. cbn [foldr]. apply Nat2Z.inj_add. Qed.

(** What the code accounts: in a session bound to user [u], after the
    calls [cs] (raising or not), [u]'s upload counter, [u]'s download
    counter and [NETWORK_TRANSMIT_BYTES] have each grown by the sum of the
    arguments [_record_user_traffic] was called with, the same value in
    both directions. *)
Theorem traffic_counters_add_up cs m w u :
  access_user m = Some u ->
  traffic u (run_calls cs m w).2
  = (User.upload_traffic (users w !!! u) + sum (byte_counts cs m w),
     User.download_traffic (users w !!! u) + sum (byte_counts cs m w),
     NETWORK_TRANSMIT_BYTES w + sum (byte_counts cs m w)).
Proof.
  revert m w. induction cs as [|c cs IH]; intros m w Hau.
  - cbn. unfold traffic, sum. cbn. rewrite !Z.add_0_r. reflexivity.
  - rewrite run_calls_cons, byte_counts_cons, sum_cons. cbn [snd].
    destruct (run_call_bound c m w u Hau) as (Hb & _ & Ht).
    rewrite (IH _ _ Hb). unfold traffic in Ht. injection Ht as -> -> ->.
    f_equal; [f_equal|]; lia.
Qed.

(** A session bound to a user never identifies. *)
Lemma run_calls_bound cs m w u :
  access_user m = Some u ->
  access_user (run_calls cs m w).1.2 = Some u
  /\ identification (run_calls cs m w).2 = identification w.
Proof.
  revert m w. induction cs as [|c cs IH]; intros m w Hau.
  - split; [exact Hau|reflexivity].
  - rewrite run_calls_cons. cbn [fst snd].
    destruct (run_call_bound c m w u Hau) as (Hb & Hi & _).
    destruct (IH _ (run_call c m w).2 Hb) as [Hb' Hi'].
    split; [exact Hb'|]. rewrite Hi'. exact Hi.
Qed.

End Sessions.

Section Construction.

Context `{CS : Ciphers} `{RG : BloomFilter}.

Implicit Types (m : CipherMan) (w : World) (u : ref) (d data : bytes).

Lemma init_fields w0 ul au ts m :
  __init__ w0 ul au ts = Ret m ->
  user_list m = ul /\ access_user m = au /\ ts_protocol m = ts
  /\ cipher m = None /\ _first_data m = None /\ _buffer m = []
  /\ last_access_user m = None
  /\ _first_data_len m
     = (if transport_eqb ts TRANSPORT_TCP
        then SALT_SIZE (cipher_cls m) + 2 + TAG_SIZE (cipher_cls m)
        else SALT_SIZE (cipher_cls m) + TAG_SIZE (cipher_cls m))%nat.
Proof.
  unfold __init__. intros H.
  destruct au as [u|]; [|destruct ul as [|u ul']; [discriminate|]].
  all: destruct (SUPPORT_METHODS _) as [cls|]; [|discriminate].
  all: injection H as <-; cbn; auto 10.
Qed.

(** C9: a manager that [get_cipher_by_port] builds for a port with exactly
    one user is bound to that user from the start, and whatever calls the
    session makes, identification never runs: the Replay Guard is neither
    looked up nor inserted into, and no trial decryption is made. *)
Theorem pre_bound_session_never_identifies
    (list_by_port : World -> Z -> list ref) w0 port ts u m :
  list_by_port w0 port = [u] ->
  get_cipher_by_port list_by_port w0 port ts = Ret m ->
  access_user m = Some u
  /\ forall cs w,
       access_user (run_calls cs m w).1.2 = Some u
       /\ bf (run_calls cs m w).2 = bf w
       /\ lookups (log (run_calls cs m w).2) = lookups (log w)
       /\ inserted (log (run_calls cs m w).2) = inserted (log w)
       /\ trials (log (run_calls cs m w).2) = trials (log w).
Proof.
  intros Hl Hm. unfold get_cipher_by_port in Hm. rewrite Hl in Hm.
  cbn [length Nat.eqb head] in Hm.
  destruct (init_fields _ _ _ _ _ Hm) as (_ & Hau & _).
  split; [exact Hau|]. intros cs w.
  destruct (run_calls_bound cs m w u Hau) as [Hb Hi].
  unfold identification in Hi. injection Hi as H1 H2 H3 H4. auto.
Qed.

End Construction.

Section Datagram.

Context `{CS : Ciphers} `{RG : BloomFilter}.

Implicit Types (m : CipherMan) (w : World) (u : ref) (d data : bytes).

(** [encrypt] on a UDP session packs with a fresh cipher and changes no
    field of the manager. *)
Lemma encrypt_datagram d m w :
  ts_protocol m = TRANSPORT_UDP -> (encrypt d m w).1.2 = m.
Proof.
  intros Hts. unfold encrypt. rewrite bind_record_user_traffic.
  unfold bind at 1. unfold self at 1. cbn beta iota. rewrite Hts.
  cbn [transport_eqb].
  match goal with |- (?c m ?w1).1.2 = _ =>
    assert (keeps (fun m _ => m) c) as Hk end.
  { unfold new_cipher_of_access_user. frame; reflexivity. }
  apply Hk.
Qed.

Lemma run_call_datagram c m w :
  ts_protocol m = TRANSPORT_UDP ->
  cipher m = None ->
  ts_protocol (run_call c m w).1.2 = TRANSPORT_UDP
  /\ cipher (run_call c m w).1.2 = None.
Proof.
  intros Hts Hc.
  assert (Hd : datagram_cipher (run_call c m w).1.2 = datagram_cipher m).
  { destruct c as [d|d|n|peer]; cbn [run_call].
    - pose proof (encrypt_datagram d m w Hts) as He. unfold bind.
      destruct (encrypt d m w) as [[[p|e] m'] w']; cbn [fst snd ret] in *;
        subst m'; reflexivity.
    - rewrite decrypt_without_cipher by exact Hc.
      apply first_data_path_datagram_cipher.
    - match goal with |- datagram_cipher (?c m w).1.2 = _ =>
        assert (keeps (fun m _ => datagram_cipher m) c) as Hk end.
      { unfold incr_user_tcp_num. frame; reflexivity. }
      apply Hk.
    - match goal with |- datagram_cipher (?c m w).1.2 = _ =>
        assert (keeps (fun m _ => datagram_cipher m) c) as Hk end.
      { unfold record_user_ip. frame; reflexivity. }
      apply Hk. }
  unfold datagram_cipher in Hd. rewrite Hts, Hc in Hd.
  injection Hd as H1 H2. rewrite H1 in H2. split; assumption.
Qed.

Lemma run_calls_datagram cs m w :
  ts_protocol m = TRANSPORT_UDP ->
  cipher m = None ->
  ts_protocol (run_calls cs m w).1.2 = TRANSPORT_UDP
  /\ cipher (run_calls cs m w).1.2 = None.
Proof.
  revert m w. induction cs as [|c cs IH]; intros m w Hts Hc.
  - split; assumption.
  - rewrite run_calls_cons. cbn [fst snd].
    destruct (run_call_datagram c m w Hts Hc) as [Hts' Hc'].
    apply IH; assumption.
Qed.

(** C10: a UDP manager has no persisted cipher when [__init__] returns it,
    and no call ever assigns one: after any calls the field [cipher] is
    still [None], so [decrypt] takes the first-data path. *)
Theorem datagram_session_never_persists_cipher w0 ul au m :
  __init__ w0 ul au TRANSPORT_UDP = Ret m ->
  cipher m = None
  /\ forall cs w,
       ts_protocol (run_calls cs m w).1.2 = TRANSPORT_UDP
       /\ cipher (run_calls cs m w).1.2 = None
       /\ forall data,
            decrypt data (run_calls cs m w).1.2 (run_calls cs m w).2
            = first_data_path data (run_calls cs m w).1.2 (run_calls cs m w).2.
Proof.
  intros Hm. destruct (init_fields _ _ _ _ _ Hm) as (_ & _ & Hts & Hc & _).
  split; [exact Hc|]. intros cs w.
  destruct (run_calls_datagram cs m w Hts Hc) as [Hts' Hc'].
  split; [exact Hts'|]. split; [exact Hc'|].
  intros data. apply decrypt_without_cipher. exact Hc'.
Qed.

(** *** Where the code departs from its specification *)

(** Fewer bytes than the threshold: [_init_cipher_and_decrypt_first_data]
    buffers them and returns [None]; the world is untouched (no
    identification); [decrypt] then raises [TypeError] at [len(data)]. *)
Lemma decrypt_short data m w :
  cipher m = None ->
  (length data + length (_buffer m) < _first_data_len m)%nat ->
  _init_cipher_and_decrypt_first_data data m w
  = (Ret None, set_buffer (_buffer m ++ data) m, w)
  /\ decrypt data m w
     = (Raise (TypeError "object of type 'NoneType' has no len()"),
        set_buffer (_buffer m ++ data) m, w).
Proof.
  intros Hc Hlt. pose proof (init_short data m w Hlt) as Hi.
  split; [exact Hi|].
  rewrite decrypt_without_cipher by exact Hc.
  apply first_data_path_none. exact Hi.
Qed.

(** A bound session without a persisted cipher (every bound UDP session):
    [decrypt] of a datagram at or above the threshold does not look at the
    datagram; when the user is enabled and no promotion is due it returns
    [self._first_data], the plaintext of the packet that bound the session,
    or raises [TypeError] when there is none. *)
Lemma decrypt_bound_ignores_data data m w u :
  access_user m = Some u ->
  cipher m = None ->
  (_first_data_len m <= length data + length (_buffer m))%nat ->
  User.enable (users w !!! u) = true ->
  last_access_user m = None ->
  decrypt data m w
  = match _first_data m with
    | Some p => (Ret (Some p), set_buffer [] m,
                 account (length p) (set_buffer [] m) w)
    | None => (Raise (TypeError "object of type 'NoneType' has no len()"),
               set_buffer [] m, w)
    end.
Proof.
  intros Hau Hc Hlen Hen Hla.
  rewrite decrypt_without_cipher by exact Hc.
  assert (Hi : _init_cipher_and_decrypt_first_data data m w
               = (Ret (_first_data m), set_buffer [] m, w)).
  { rewrite init_enough by exact Hlen. rewrite Hau. unfold bind, ret.
    apply (after_identification_unseeded (set_buffer [] m) w u); assumption. }
  destruct (_first_data m) as [p|].
  - apply first_data_path_ret. exact Hi.
  - apply first_data_path_none. exact Hi.
Qed.

End Datagram.

(** ** The properties on the concrete instance *)

Module ToyFacts.

Import Toy.

#[export] Instance bloom_sound : BloomFilterSound (H := bloom).
Proof.
  split; cbn; intros s.
  - intros b. rewrite !N.setbit_eqb, N.eqb_refl, orb_true_r.
    rewrite N.eqb_refl. reflexivity.
  - intros t b [H1 H2]%andb_true_iff.
    rewrite !N.setbit_eqb, H1, H2, !orb_true_r. reflexivity.
Qed.

Example get_cipher_by_port_stream3 :
  get_cipher_by_port list_by_port world0 8388 TRANSPORT_TCP = Ret stream3.
Proof. reflexivity. Qed.

Example get_cipher_by_port_datagram3 :
  get_cipher_by_port list_by_port world0 8388 TRANSPORT_UDP = Ret datagram3.
Proof. reflexivity. Qed.

Example get_cipher_by_port_stream1 :
  get_cipher_by_port list_by_port world0 8389 TRANSPORT_TCP = Ret stream1.
Proof. reflexivity. Qed.

Example get_cipher_by_port_datagram1 :
  get_cipher_by_port list_by_port world0 8389 TRANSPORT_UDP = Ret datagram1.
Proof. reflexivity. Qed.

(** The Bloom filter is lossy: a salt never inserted can test positive. *)
Example bloom_false_positive :
  bf_contains [Byte.x09; Byte.x0a] (bf_add [Byte.x01; Byte.x02] bf_new) = true.
Proof. reflexivity. Qed.

(** C2: a fresh TCP session for port 8388 (threshold 2 + 2 + 1 = 5 bytes)
    is fed one byte.  The byte is buffered and nothing is identified, but
    [decrypt] does not return the no-data signal: [len(data)] on the [None]
    that [_init_cipher_and_decrypt_first_data] returned raises
    [TypeError]. *)
Theorem short_stream_read_raises_type_error :
  get_cipher_by_port list_by_port world0 8388 TRANSPORT_TCP = Ret stream3
  /\ (length [Byte.x01] + length (_buffer stream3) < _first_data_len stream3)%nat
  /\ _init_cipher_and_decrypt_first_data [Byte.x01] stream3 world0
     = (Ret None, set_buffer [Byte.x01] stream3, world0)
  /\ decrypt [Byte.x01] stream3 world0
     = (Raise (TypeError "object of type 'NoneType' has no len()"),
        set_buffer [Byte.x01] stream3, world0).
Proof. repeat split. cbn. lia. Qed.

(** C5: on a bound UDP session [decrypt] builds no cipher and unpacks
    nothing.  A session that identified bob from a first datagram returns
    that datagram's plaintext again for the next one, whose [unpack] under
    bob's password is a different plaintext; and the session
    [get_cipher_by_port] pre-binds to the only user of port 8389 raises
    [TypeError] on a datagram that [unpack] opens under that user's
    password. *)
Theorem bound_datagram_decrypt_does_not_unpack :
  (run_calls [Decrypt to_bravo; Decrypt to_bravo_again] datagram3 world0).1.1
  = [Ret (Some [Byte.x68; Byte.x69]); Ret (Some [Byte.x68; Byte.x69])]
  /\ access_user (run_call (Decrypt to_bravo) datagram3 world0).1.2
     = Some 2%positive
  /\ cipher_unpack cls (cipher_new cls (User.password bob)) to_bravo_again
     = Ret [Byte.x79; Byte.x6f]
  /\ get_cipher_by_port list_by_port world0 8389 TRANSPORT_UDP = Ret datagram1
  /\ access_user datagram1 = Some 4%positive
  /\ (decrypt to_dave datagram1 world0).1.1
     = Raise (TypeError "object of type 'NoneType' has no len()")
  /\ cipher_unpack cls (cipher_new cls (User.password dave)) to_dave
     = Ret [Byte.x68; Byte.x69].
Proof. repeat split. Qed.

(** C8: a UDP session for port 8388 identifies bob from a first datagram
    and is bound to him from then on.  Its next [decrypt] is given a
    datagram of 13 bytes whose [unpack] under bob's password is a plaintext
    of 10 bytes; bob's upload counter, his download counter and
    [NETWORK_TRANSMIT_BYTES] each grow by 2, the length of the first
    datagram's plaintext, which the call returns again.  And the first
    [decrypt] of the TCP session pre-bound to dave, given 5 bytes that
    dave's cipher decrypts to 2, raises [TypeError] and accounts nothing. *)
Theorem bound_session_traffic_is_miscounted :
  access_user (run_call (Decrypt to_bravo) datagram3 world0).1.2
  = Some 2%positive
  /\ traffic 2%positive (run_call (Decrypt to_bravo) datagram3 world0).2
     = (2, 2, 2)
  /\ length to_bravo_long = 13%nat
  /\ cipher_unpack cls (cipher_new cls (User.password bob)) to_bravo_long
     = Ret [Byte.x30; Byte.x31; Byte.x32; Byte.x33; Byte.x34;
            Byte.x35; Byte.x36; Byte.x37; Byte.x38; Byte.x39]
  /\ (run_calls [Decrypt to_bravo; Decrypt to_bravo_long] datagram3 world0).1.1
     = [Ret (Some [Byte.x68; Byte.x69]); Ret (Some [Byte.x68; Byte.x69])]
  /\ traffic 2%positive
       (run_calls [Decrypt to_bravo; Decrypt to_bravo_long] datagram3 world0).2
     = (4, 4, 4)
  /\ get_cipher_by_port list_by_port world0 8389 TRANSPORT_TCP = Ret stream1
  /\ access_user stream1 = Some 4%positive
  /\ length to_dave = 5%nat
  /\ (cipher_decrypt cls (cipher_new cls (User.password dave)) to_dave).1
     = Ret [Byte.x68; Byte.x69]
  /\ (decrypt to_dave stream1 world0).1.1
     = Raise (TypeError "object of type 'NoneType' has no len()")
  /\ traffic 4%positive (decrypt to_dave stream1 world0).2
     = traffic 4%positive world0.
Proof. repeat split. Qed.

Lemma replayed_salt_is_rejected_witness :
  _find_access_user to_bravo datagram3
    (run_call (Encrypt [Byte.x68]) stream1
       (_find_access_user to_bravo stream3 world0).2).2
  = (Raise (RuntimeError RepeatedSalt), datagram3,
     logged (BfContains (salt_of datagram3 to_bravo))
       (run_call (Encrypt [Byte.x68]) stream1
          (_find_access_user to_bravo stream3 world0).2).2).
Proof.
  refine (proj1 (proj1 (replayed_salt_is_rejected (SND := bloom_sound))
                   stream3 to_bravo world0 _ datagram3 to_bravo _ _)).
  - eapply rtc_l; [apply step_call | apply rtc_refl].
  - reflexivity.
Defined.


Lemma trial_failure_skips_or_propagates_witness :
  find_loop to_bravo [1; 2; 3]%positive 0 stream3 world0
  = find_loop to_bravo [2; 3]%positive 1 (seed 1%positive stream3)
      (logged (Trial 1%positive to_bravo) world0)
  /\ exists e' m' w',
       find_loop malformed [1; 2; 3]%positive 0 stream3 world0 = (Raise e', m', w')
       /\ (ValueError ["malformed packet"] <> ValueError [] ->
           e' = ValueError ["malformed packet"])
       /\ access_user m' = access_user stream3
       /\ trials (log w') = (1%positive, malformed) :: trials (log world0).
Proof.
  split.
  - apply (proj1 (trial_failure_skips_or_propagates to_bravo 1%positive
                    [2; 3]%positive 0%nat stream3 world0
                    (ValueError ["MAC check failed"]) eq_refl)).
    reflexivity.
  - apply (proj2 (trial_failure_skips_or_propagates malformed 1%positive
                    [2; 3]%positive 0%nat stream3 world0
                    (ValueError ["malformed packet"]) eq_refl)).
    reflexivity.
Defined.

Lemma disabled_user_is_refused_witness :
  exists m' w',
    _init_cipher_and_decrypt_first_data to_carol datagram3 world0
    = (Raise (RuntimeError (UserDisabled 3)), m', w')
    /\ decrypt to_carol datagram3 world0
       = (Raise (RuntimeError (UserDisabled 3)), m', w')
    /\ access_user m' = Some 3%positive
    /\ _first_data m' = Some [Byte.x68; Byte.x69].
Proof.
  apply (disabled_user_is_refused to_carol datagram3 world0
           [1; 2]%positive 3%positive []).
  - reflexivity.
  - reflexivity.
  - cbn. lia.
  - reflexivity.
  - reflexivity.
  - repeat constructor.
  - reflexivity.
  - reflexivity.
Defined.

Lemma matched_user_is_promoted_witness :
  exists m' w',
    _init_cipher_and_decrypt_first_data to_bravo stream3 world_bob4
    = (Ret (Some [Byte.x68; Byte.x69]), m', w')
    /\ access_user m' = Some 2%positive
    /\ last_access_user m' = Some 1%positive
    /\ (User.ne (users world_bob4 !!! 2%positive) (users world_bob4 !!! 1%positive)
        = true ->
        (exists b,
            In b (user_list stream3)
            /\ (forall v, In v (user_list stream3) ->
                   User.access_order (users world_bob4 !!! v)
                   <= User.access_order (users world_bob4 !!! b))
            /\ users w' !!! 2%positive
               = User.set_access_order
                   (User.access_order (users world_bob4 !!! b) + 1)
                   (users world_bob4 !!! 2%positive))
        /\ (forall v, In v (user_list stream3) ->
              User.access_order (users world_bob4 !!! v)
              < User.access_order (users w' !!! 2%positive))
        /\ directory w' !! User.user_id (users world_bob4 !!! 2%positive)
           = Some (users w' !!! 2%positive)
        /\ In (UserSave 2) (log w')
        /\ (forall v, v <> 2%positive ->
              users w' !!! v = users world_bob4 !!! v))
    /\ (User.ne (users world_bob4 !!! 2%positive) (users world_bob4 !!! 1%positive)
        = false ->
        users w' = users world_bob4 /\ directory w' = directory world_bob4).
Proof.
  apply (matched_user_is_promoted to_bravo stream3 world_bob4
           [1%positive] 2%positive [3%positive]).
  - reflexivity.
  - reflexivity.
  - cbn. lia.
  - reflexivity.
  - reflexivity.
  - reflexivity.
  - repeat constructor.
  - reflexivity.
  - reflexivity.
Defined.

(** In that session the head of the candidate list is alice, with ordering
    value 3, and bob already holds 4: bob is promoted to 5, in the object
    and in the saved row. *)
Example promotion_passes_the_current_best :
  User.access_order
    (users (_init_cipher_and_decrypt_first_data to_bravo stream3 world_bob4).2
       !!! 2%positive) = 5
  /\ option_map User.access_order
       (directory (_init_cipher_and_decrypt_first_data to_bravo stream3 world_bob4).2
          !! 2) = Some 5.
Proof. split; reflexivity. Qed.

Lemma traffic_counters_add_up_witness :
  traffic 4%positive
    (run_calls [Encrypt [Byte.x68; Byte.x69; Byte.x21]; Decrypt to_dave]
       stream1 world0).2
  = (User.upload_traffic (users world0 !!! 4%positive)
     + sum (byte_counts [Encrypt [Byte.x68; Byte.x69; Byte.x21]; Decrypt to_dave]
              stream1 world0),
     User.download_traffic (users world0 !!! 4%positive)
     + sum (byte_counts [Encrypt [Byte.x68; Byte.x69; Byte.x21]; Decrypt to_dave]
              stream1 world0),
     NETWORK_TRANSMIT_BYTES world0
     + sum (byte_counts [Encrypt [Byte.x68; Byte.x69; Byte.x21]; Decrypt to_dave]
              stream1 world0)).
Proof. apply traffic_counters_add_up. reflexivity. Defined.

(** The byte counts of that session: 3 bytes encrypted, 5 bytes decrypted
    through the persisted cipher. *)
Example byte_counts_stream1 :
  byte_counts [Encrypt [Byte.x68; Byte.x69; Byte.x21]; Decrypt to_dave]
    stream1 world0 = [3; 5]%nat
  /\ traffic 4%positive
       (run_calls [Encrypt [Byte.x68; Byte.x69; Byte.x21]; Decrypt to_dave]
          stream1 world0).2 = (8, 8, 8).
Proof. split; reflexivity. Qed.

Lemma pre_bound_session_never_identifies_witness :
  access_user stream1 = Some 4%positive
  /\ forall cs w,
       access_user (run_calls cs stream1 w).1.2 = Some 4%positive
       /\ bf (run_calls cs stream1 w).2 = bf w
       /\ lookups (log (run_calls cs stream1 w).2) = lookups (log w)
       /\ inserted (log (run_calls cs stream1 w).2) = inserted (log w)
       /\ trials (log (run_calls cs stream1 w).2) = trials (log w).
Proof.
  apply (pre_bound_session_never_identifies list_by_port world0 8389
           TRANSPORT_TCP).
  - reflexivity.
  - reflexivity.
Defined.

Lemma datagram_session_never_persists_cipher_witness :
  cipher datagram3 = None
  /\ forall cs w,
       ts_protocol (run_calls cs datagram3 w).1.2 = TRANSPORT_UDP
       /\ cipher (run_calls cs datagram3 w).1.2 = None
       /\ forall data,
            decrypt data (run_calls cs datagram3 w).1.2 (run_calls cs datagram3 w).2
            = first_data_path data (run_calls cs datagram3 w).1.2
                (run_calls cs datagram3 w).2.
Proof.
  apply (datagram_session_never_persists_cipher world0
           [1; 2; 3]%positive None).
  reflexivity.
Defined.

End ToyFacts.

(** * Further properties of the manager *)

(** ** Construction *)

Section ConstructionOutcomes.

Context `{CS : Ciphers} `{RG : BloomFilter}.

Implicit Types (m : CipherMan) (w : World) (u : ref) (d data : bytes).

(** [get_cipher_by_port] fails on a port without users ([user_list[0]]
    raises [IndexError]) and on a first user whose method is not one of the
    five of [SUPPORT_METHODS] ([SALT_SIZE] of [None] raises
    [AttributeError]): in both cases no manager is built. *)
Theorem construction_fails_without_users_or_method
    (list_by_port : World -> Z -> list ref) w0 port ts :
  (list_by_port w0 port = [] ->
   get_cipher_by_port list_by_port w0 port ts
   = Raise (IndexError "list index out of range"))
  /\ (forall u rest,
        list_by_port w0 port = u :: rest ->
        SUPPORT_METHODS (User.method (users w0 !!! u)) = None ->
        get_cipher_by_port list_by_port w0 port ts
        = Raise (AttributeError "'NoneType' object has no attribute 'SALT_SIZE'")).
Proof.
  unfold get_cipher_by_port, __init__. split.
  - intros ->. reflexivity.
  - intros u rest -> Hm. cbn [length head].
    destruct rest as [|v rest]; cbn; rewrite Hm; reflexivity.
Qed.

(** The manager [get_cipher_by_port] returns is bound from the start
    exactly when the port has exactly one user; in every case its cipher
    class is the one of the first user's method, whatever the methods of
    the other candidates, and it starts without cipher, first data, buffer
    or last tried user. *)
Theorem construction_binds_exactly_single_user
    (list_by_port : World -> Z -> list ref) w0 port ts m :
  get_cipher_by_port list_by_port w0 port ts = Ret m ->
  exists u rest,
    list_by_port w0 port = u :: rest
    /\ user_list m = u :: rest
    /\ (access_user m = Some u <-> rest = [])
    /\ (access_user m = None <-> rest <> [])
    /\ method m = User.method (users w0 !!! u)
    /\ SUPPORT_METHODS (User.method (users w0 !!! u)) = Some (cipher_cls m)
    /\ ts_protocol m = ts
    /\ cipher m = None /\ _first_data m = None /\ _buffer m = []
    /\ last_access_user m = None.
Proof.
  unfold get_cipher_by_port, __init__.
  destruct (list_by_port w0 port) as [|u rest]; [discriminate|].
  intros H. exists u, rest. destruct rest as [|v rest]; cbn in H.
  all: destruct (SUPPORT_METHODS (User.method (users w0 !!! u))) as [cls|] eqn:Hm;
    [|discriminate].
  all: injection H as <-; cbn.
  all: repeat split; try reflexivity; try congruence.
Qed.

End ConstructionOutcomes.

(** ** Buffering and configuration *)

Section Buffering.

Context `{CS : Ciphers} `{RG : BloomFilter}.

Implicit Types (m : CipherMan) (w : World) (u : ref) (d data : bytes).

Lemma find_loop_config d us cnt :
  keeps (fun m _ => (config m, _buffer m)) (find_loop d us cnt).
Proof.
  revert cnt. induction us as [|u us IH]; intros cnt; cbn [find_loop].
  - frame.
  - frame; try reflexivity; try apply IH.
    all: unfold trial; frame; reflexivity.
Qed.

Lemma find_access_user_config d :
  keeps (fun m _ => (config m, _buffer m)) (_find_access_user d).
Proof.
  unfold _find_access_user. frame; try reflexivity. apply find_loop_config.
Qed.

Lemma record_user_traffic_self n : keeps (fun m _ => m) (_record_user_traffic n).
Proof. unfold _record_user_traffic. frame; reflexivity. Qed.

Lemma encrypt_config d : keeps (fun m _ => (config m, _buffer m)) (encrypt d).
Proof.
  unfold encrypt, new_cipher_of_access_user, _record_user_traffic.
  frame; reflexivity.
Qed.

Lemma init_config data :
  keeps (fun m _ => config m) (_init_cipher_and_decrypt_first_data data).
Proof.
  unfold _init_cipher_and_decrypt_first_data, _find_access_user.
  frame; try reflexivity.
  match goal with |- keeps _ (find_loop ?d ?us ?c) =>
    intros m0 w0; exact (f_equal fst (find_loop_config d us c m0 w0)) end.
Qed.

Lemma run_call_config c : keeps (fun m _ => config m) (run_call c).
Proof.
  destruct c as [d|d|n|peer]; cbn [run_call].
  - frame. intros m w. exact (f_equal fst (encrypt_config d m w)).
  - unfold decrypt, _record_user_traffic. frame; try reflexivity.
    apply init_config.
  - unfold incr_user_tcp_num. frame; reflexivity.
  - unfold record_user_ip. frame; reflexivity.
Qed.

Lemma run_calls_config cs m w : config (run_calls cs m w).1.2 = config m.
Proof.
  revert m w. induction cs as [|c cs IH]; intros m w; [reflexivity|].
  rewrite run_calls_cons. cbn [fst snd]. rewrite IH. apply run_call_config.
Qed.

(** Whatever it is given, [_init_cipher_and_decrypt_first_data] leaves a
    buffer that is empty or below the threshold. *)
Lemma init_buffer_ok data m w :
  buffer_ok (_init_cipher_and_decrypt_first_data data m w).1.2.
Proof.
  destruct (Nat.lt_ge_cases (length data + length (_buffer m)) (_first_data_len m))
    as [Hlt|Hge].
  - rewrite init_short by exact Hlt. right.
    cbn [fst snd _buffer _first_data_len set_buffer].
    rewrite length_app. lia.
  - rewrite init_enough by exact Hge. left.
    match goal with |- _buffer (?c ?m0 w).1.2 = _ =>
      assert (keeps (fun m _ => _buffer m) c) as Hk end.
    { unfold after_identification. frame; try reflexivity.
      intros m0 w0. exact (f_equal snd (find_access_user_config _ m0 w0)). }
    rewrite Hk. reflexivity.
Qed.

(** [decrypt] through the persisted cipher. *)
Lemma decrypt_persisted_eq d m w c :
  cipher m = Some c ->
  decrypt d m w
  = (some_outcome (cipher_decrypt (cipher_cls m) c d).1,
     set_cipher (Some (cipher_decrypt (cipher_cls m) c d).2) m,
     account (length d) m w).
Proof.
  intros Hc.
  assert (E : decrypt d m w
    = bind (_record_user_traffic (length d))
        (fun _ => let '(r, c') := cipher_decrypt (cipher_cls m) c d in
           bind (update_self (set_cipher (Some c')))
             (fun _ => bind (lift r) (fun p => ret (Some p)))) m w).
  { unfold decrypt. unfold bind at 1. unfold self at 1. cbn beta iota.
    rewrite Hc. reflexivity. }
  rewrite E, bind_record_user_traffic.
  destruct (cipher_decrypt (cipher_cls m) c d) as [[p|e] c']; reflexivity.
Qed.

Lemma run_call_buffer_ok c m w :
  buffer_ok m -> buffer_ok (run_call c m w).1.2.
Proof.
  intros Hok.
  assert (Hkeep : config (run_call c m w).1.2 = config m
                  -> _buffer (run_call c m w).1.2 = _buffer m
                  -> buffer_ok (run_call c m w).1.2).
  { unfold buffer_ok, config. intros [= _ _ _ ->] ->. exact Hok. }
  destruct c as [d|d|n|peer].
  - apply Hkeep; [apply run_call_config|]. cbn [run_call].
    match goal with |- _buffer (?c m w).1.2 = _ =>
      assert (keeps (fun m _ => _buffer m) c) as Hk end.
    { frame. intros m0 w0. exact (f_equal snd (encrypt_config d m0 w0)). }
    apply Hk.
  - cbn [run_call]. destruct (cipher m) as [c|] eqn:Hc.
    + apply Hkeep; [apply (run_call_config (Decrypt d))|]. cbn [run_call].
      rewrite (decrypt_persisted_eq d m w c Hc). reflexivity.
    + rewrite decrypt_without_cipher by exact Hc.
      pose proof (init_buffer_ok d m w) as Hi.
      unfold first_data_path. unfold bind at 1.
      destruct (_init_cipher_and_decrypt_first_data d m w)
        as [[[o|e] m'] w']; cbn [fst snd] in *; [|exact Hi].
      match goal with |- buffer_ok (?c m' w').1.2 =>
        assert (keeps (fun m _ => m) c) as Hk end.
      { frame; try reflexivity. apply record_user_traffic_self. }
      rewrite Hk. exact Hi.
  - apply Hkeep; [apply run_call_config|]. cbn [run_call].
    unfold incr_user_tcp_num. py_unfold. cbn beta iota.
    destruct (access_user m); reflexivity.
  - apply Hkeep; [apply run_call_config|]. cbn [run_call].
    unfold record_user_ip. py_unfold. cbn beta iota.
    destruct (access_user m); reflexivity.
Qed.

(** The pending buffer of a session stays empty or below the threshold
    over any sequence of calls, raising or not. *)
Theorem buffer_stays_below_threshold cs m w :
  buffer_ok m -> buffer_ok (run_calls cs m w).1.2.
Proof.
  revert m w. induction cs as [|c cs IH]; intros m w Hok; [exact Hok|].
  rewrite run_calls_cons. cbn [fst snd]. apply IH, run_call_buffer_ok, Hok.
Qed.

(** Bytes that arrive in two pieces are handled as if they had arrived at
    once: after a piece [d1] that stays below the threshold, the first-data
    call on [d2] does what it would have done on [d1 ++ d2] in the first
    place (same result, same manager, same world), and so does [decrypt]'s
    first-data branch. *)
Theorem buffering_is_transparent d1 d2 m w :
  (length d1 + length (_buffer m) < _first_data_len m)%nat ->
  _init_cipher_and_decrypt_first_data d2
    (_init_cipher_and_decrypt_first_data d1 m w).1.2
    (_init_cipher_and_decrypt_first_data d1 m w).2
  = _init_cipher_and_decrypt_first_data (d1 ++ d2) m w
  /\ first_data_path d2
       (_init_cipher_and_decrypt_first_data d1 m w).1.2
       (_init_cipher_and_decrypt_first_data d1 m w).2
     = first_data_path (d1 ++ d2) m w.
Proof.
  intros Hlt. rewrite !(init_short d1 m w Hlt). cbn [fst snd].
  assert (E : _init_cipher_and_decrypt_first_data d2
                (set_buffer (_buffer m ++ d1) m) w
              = _init_cipher_and_decrypt_first_data (d1 ++ d2) m w).
  { destruct (Nat.lt_ge_cases (length (d1 ++ d2) + length (_buffer m))
                (_first_data_len m)) as [H|H].
    - rewrite (init_short (d1 ++ d2)) by exact H.
      rewrite init_short.
      + cbn [_buffer set_buffer]. rewrite <- app_assoc. reflexivity.
      + cbn [_buffer set_buffer _first_data_len].
        rewrite length_app in *. lia.
    - rewrite (init_enough (d1 ++ d2)) by exact H.
      rewrite init_enough.
      + cbn [_buffer set_buffer access_user]. rewrite <- app_assoc.
        reflexivity.
      + cbn [_buffer set_buffer _first_data_len].
        rewrite length_app in *. lia. }
  split; [exact E|]. unfold first_data_path, bind. rewrite E. reflexivity.
Qed.

End Buffering.

(** ** A successful identification *)

Section Matching.

Context `{CS : Ciphers} `{RG : BloomFilter}.

Implicit Types (m : CipherMan) (w : World) (u : ref) (d data : bytes).

Lemma after_identification_no_first m w u l :
  access_user m = Some u ->
  User.enable (users w !!! u) = true ->
  last_access_user m = Some l ->
  User.ne (users w !!! u) (users w !!! l) = true ->
  best w (user_list m) = None ->
  after_identification m w
  = (Raise (AttributeError "'NoneType' object has no attribute 'access_order'"),
     set_user_list [] m, w).
Proof.
  intros H1 H2 H3 H4 H5. unfold after_identification. py_unfold.
  cbn beta iota. rewrite H1. cbn beta iota. rewrite H2. cbn [negb].
  rewrite H3. cbn beta iota. rewrite H4, H5. reflexivity.
Qed.

(** In a bound session the checks after identification leave the world as
    it is or promote the bound user. *)
Lemma after_identification_world m w u :
  access_user m = Some u ->
  (after_identification m w).2 = w
  \/ exists f, (after_identification m w).2 = promote u f w.
Proof.
  intros Hau. destruct (User.enable (users w !!! u)) eqn:Hen.
  2:{ rewrite (after_identification_disabled m w u Hau Hen). left. reflexivity. }
  destruct (last_access_user m) as [l|] eqn:Hl.
  2:{ rewrite (after_identification_unseeded m w u Hau Hen Hl). left.
      reflexivity. }
  destruct (User.ne (users w !!! u) (users w !!! l)) eqn:Hne.
  2:{ rewrite (after_identification_same m w u l Hau Hen Hl Hne). left.
      reflexivity. }
  destruct (best w (user_list m)) as [f|] eqn:Hf.
  - rewrite (after_identification_promote m w u l f Hau Hen Hl Hne Hf).
    right. exists f. reflexivity.
  - rewrite (after_identification_no_first m w u l Hau Hen Hl Hne Hf).
    left. reflexivity.
Qed.

(** When the bound user is enabled and there are candidates, the checks
    pass and return [self._first_data]; the candidate list is as it was or
    narrowed to the best candidate. *)
Lemma after_identification_enabled m w u f :
  access_user m = Some u ->
  User.enable (users w !!! u) = true ->
  best w (user_list m) = Some f ->
  exists m' w',
    after_identification m w = (Ret (_first_data m), m', w')
    /\ (m' = m /\ w' = w \/ m' = set_user_list [f] m /\ w' = promote u f w).
Proof.
  intros Hau Hen Hf.
  destruct (last_access_user m) as [l|] eqn:Hl.
  2:{ exists m, w. rewrite (after_identification_unseeded m w u Hau Hen Hl). auto. }
  destruct (User.ne (users w !!! u) (users w !!! l)) eqn:Hne.
  - exists (set_user_list [f] m), (promote u f w).
    rewrite (after_identification_promote m w u l f Hau Hen Hl Hne Hf). auto.
  - exists m, w. rewrite (after_identification_same m w u l Hau Hen Hl Hne). auto.
Qed.

Lemma promote_fields u f w :
  bf (promote u f w) = bf w
  /\ log (promote u f w) = UserSave u :: log w
  /\ NETWORK_TRANSMIT_BYTES (promote u f w) = NETWORK_TRANSMIT_BYTES w
  /\ User.upload_traffic (users (promote u f w) !!! u)
     = User.upload_traffic (users w !!! u)
  /\ User.download_traffic (users (promote u f w) !!! u)
     = User.download_traffic (users w !!! u)
  /\ forall v, v <> u -> users (promote u f w) !!! v = users w !!! v.
Proof.
  unfold promote.
  cbn [bf log users NETWORK_TRANSMIT_BYTES set_directory set_users logged set_log].
  rewrite lookup_total_insert_eq. repeat split.
  intros v Hv. apply lookup_total_insert_ne. congruence.
Qed.

Lemma account_fields n m w :
  bf (account n m w) = bf w
  /\ log (account n m w) = log w
  /\ directory (account n m w) = directory w
  /\ NETWORK_TRANSMIT_BYTES (account n m w)
     = NETWORK_TRANSMIT_BYTES w + Z.of_nat n.
Proof. unfold account. destruct (access_user m); cbn; auto. Qed.

(** An unbound session whose first blob carries a fresh salt and is
    decrypted by candidate [u], after the candidates [pre] before it failed
    the integrity check: [decrypt] returns the plaintext and binds the
    session to [u]; the candidates were tried in order up to [u] and none
    after it; the buffer is consumed; for TCP the cipher that decrypted is
    persisted, for UDP none is; the salt is in the Replay Guard; and the
    plaintext's length is accounted to [u] and to the metric. *)
Theorem first_matching_candidate_is_bound data m w pre u post p :
  access_user m = None ->
  cipher m = None ->
  (_first_data_len m <= length data + length (_buffer m))%nat ->
  bf_contains (salt_of m (_buffer m ++ data)) (bf w) = false ->
  user_list m = (pre ++ u :: post)%list ->
  Forall (fun v =>
            mac_check_failed (trial_outcome m w v (_buffer m ++ data)) = true)
         pre ->
  trial_outcome m w u (_buffer m ++ data) = Ret p ->
  User.enable (users w !!! u) = true ->
  exists m' w',
    decrypt data m w = (Ret (Some p), m', w')
    /\ access_user m' = Some u
    /\ _first_data m' = Some p
    /\ _buffer m' = []
    /\ cipher m' = trial_cipher m w u (_buffer m ++ data)
    /\ trials (log w')
       = ((u, (_buffer m ++ data)%list)
            :: reverse (map (fun v => (v, (_buffer m ++ data)%list)) pre)
            ++ trials (log w))%list
    /\ In (LogInfo (Some u) (S (length pre))) (log w')
    /\ bf w' = bf_add (salt_of m (_buffer m ++ data)) (bf w)
    /\ User.upload_traffic (users w' !!! u)
       = User.upload_traffic (users w !!! u) + Z.of_nat (length p)
    /\ NETWORK_TRANSMIT_BYTES w'
       = NETWORK_TRANSMIT_BYTES w + Z.of_nat (length p).
Proof.
  intros Hau Hci Hlen Hs Hl Hpre Hu Hen.
  set (d := (_buffer m ++ data)%list) in *.
  set (mb := bound u p (trial_cipher m w u d) (seeded (user_list m) (set_buffer [] m))).
  set (wb := logged (LogInfo (Some u) (S (length pre)))
               (logged (Trial u d)
                  (logged_all (tried d pre)
                     (set_bf (bf_add (salt_of m d) (bf w))
                        (logged (BfAdd (salt_of m d))
                           (logged (BfContains (salt_of m d)) w)))))).
  assert (Hinit : _init_cipher_and_decrypt_first_data data m w
                  = after_identification mb wb).
  { rewrite init_enough by exact Hlen. rewrite Hau. unfold bind at 1.
    fold d.
    rewrite (find_access_user_hit d (set_buffer [] m) w pre u post p);
      [reflexivity | exact Hs | exact Hl | | ].
    - eapply Forall_impl; [exact Hpre|]. intros v Hv. cbn beta.
      erewrite trial_outcome_frame; [exact Hv|reflexivity..].
    - erewrite trial_outcome_frame; [exact Hu|reflexivity..]. }
  assert (Hf : exists f, best wb (user_list mb) = Some f).
  { unfold mb. cbn [user_list bound set_access_user set_cipher set_first_data].
    destruct (seeded_fields (user_list m) (set_buffer [] m))
      as (_ & _ & _ & -> & _). cbn [user_list set_buffer]. rewrite Hl.
    destruct pre; apply best_cons. }
  destruct Hf as [f Hf].
  assert (Hbuf : _buffer mb = []).
  { unfold mb. cbn [_buffer bound set_access_user set_cipher set_first_data].
    destruct (user_list m); cbn; unfold seed; cbn;
      destruct (last_access_user m); reflexivity. }
  destruct (after_identification_enabled mb wb u f eq_refl Hen Hf)
    as (m1 & w1 & Hafter & Hmw).
  rewrite Hafter in Hinit.
  change (_first_data mb) with (Some p) in Hinit.
  assert (Hm1 : access_user m1 = Some u /\ _first_data m1 = Some p
                /\ _buffer m1 = [] /\ cipher m1 = trial_cipher m w u d).
  { destruct Hmw as [[-> _]|[-> _]]; repeat split; exact Hbuf. }
  destruct Hm1 as (Hau1 & Hfd1 & Hbuf1 & Hci1).
  exists m1, (account (length p) m1 w1).
  split.
  { rewrite decrypt_without_cipher by exact Hci.
    apply first_data_path_ret. exact Hinit. }
  destruct (account_fields (length p) m1 w1) as (Hbf & Hlog & _ & Hnet).
  destruct (promote_fields u f wb) as (Pbf & Plog & Pnet & Pup & _).
  assert (Htr : trials (log wb)
                = ((u, d) :: reverse (map (fun v => (v, d)) pre)
                     ++ trials (log w))%list).
  { unfold wb. cbn [logged log set_log logged_all set_bf trials].
    rewrite trials_app, trials_tried. reflexivity. }
  split; [exact Hau1|]. split; [exact Hfd1|]. split; [exact Hbuf1|].
  split; [exact Hci1|].
  pose proof (account_traffic (length p) m1 w1 u Hau1) as Ht.
  unfold traffic in Ht.
  pose proof (f_equal (fun t : Z * Z * Z => t.1.1) Ht) as Hup.
  cbn [fst] in Hup. clear Ht.
  rewrite Hlog, Hbf, Hnet, Hup.
  assert (Hw1 : w1 = wb \/ w1 = promote u f wb) by (destruct Hmw as [[_ ->]|[_ ->]]; auto).
  clear Hmw. destruct Hw1 as [->| ->].
  - repeat split; try exact Htr; try reflexivity. left. reflexivity.
  - rewrite Plog, Pbf, Pnet, Pup. cbn [trials].
    repeat split; try exact Htr; try reflexivity. right. left. reflexivity.
Qed.

End Matching.

(** ** Bound sessions *)

Section BoundSessions.

Context `{CS : Ciphers} `{RG : BloomFilter}.

Implicit Types (m : CipherMan) (w : World) (u : ref) (d data : bytes).

(** Once a session is bound to a user, by construction or by
    identification, it stays bound to that user over any sequence of calls
    and never identifies again: the Replay Guard and the lists of lookups,
    insertions and trials stay as they are. *)
Theorem bound_session_stays_bound cs m w u :
  access_user m = Some u ->
  access_user (run_calls cs m w).1.2 = Some u
  /\ identification (run_calls cs m w).2 = identification w.
Proof. apply run_calls_bound. Qed.

Lemma account_others n m w u v :
  access_user m = Some u -> v <> u ->
  users (account n m w) !!! v = users w !!! v.
Proof.
  intros Hau Hv. unfold account. rewrite Hau.
  cbn [users set_users set_NETWORK_TRANSMIT_BYTES].
  apply lookup_total_insert_ne. congruence.
Qed.

Lemma init_bound_others data m w u v :
  access_user m = Some u -> v <> u ->
  users (_init_cipher_and_decrypt_first_data data m w).2 !!! v = users w !!! v.
Proof.
  intros Hau Hv. rewrite (init_bound data m w u Hau).
  destruct (_ <? _)%nat; [reflexivity|].
  destruct (after_identification_world (set_buffer [] m) w u Hau)
    as [->|[f ->]]; [reflexivity|].
  apply promote_fields. exact Hv.
Qed.

Lemma run_call_bound_others c m w u v :
  access_user m = Some u -> v <> u ->
  users (run_call c m w).2 !!! v = users w !!! v.
Proof.
  intros Hau Hv. destruct c as [d|d|n|peer]; cbn [run_call].
  - destruct (encrypt_account d m w) as [Hw _]. unfold bind.
    destruct (encrypt d m w) as [[[p|e] m'] w']; cbn [fst snd ret] in *;
      subst w'; apply (account_others _ _ _ u); assumption.
  - destruct (cipher m) as [c|] eqn:Hc.
    + rewrite (decrypt_persisted_eq d m w c Hc). cbn [snd].
      apply (account_others _ _ _ u); assumption.
    + rewrite decrypt_without_cipher by exact Hc.
      destruct (init_bound_keeps d m w u Hau) as [Hb _].
      pose proof (init_bound_others d m w u v Hau Hv) as Ho.
      destruct (_init_cipher_and_decrypt_first_data d m w)
        as [[[[p|]|e] m'] w'] eqn:Hinit; cbn [fst snd] in *.
      * rewrite (first_data_path_ret _ _ _ _ _ _ Hinit). cbn [snd].
        rewrite (account_others _ _ _ u) by assumption. exact Ho.
      * rewrite (first_data_path_none _ _ _ _ _ Hinit). exact Ho.
      * rewrite (first_data_path_raise _ _ _ _ _ _ Hinit). exact Ho.
  - unfold incr_user_tcp_num. py_unfold. cbn beta iota. rewrite Hau.
    cbn [snd users set_users]. apply lookup_total_insert_ne. congruence.
  - unfold record_user_ip. py_unfold. cbn beta iota. rewrite Hau.
    cbn [snd users set_users]. apply lookup_total_insert_ne. congruence.
Qed.

(** A session bound to [u] writes to no user object but [u]'s: whatever
    it is called with, every other user's object stays as it was. *)
Theorem bound_session_touches_only_its_user cs m w u v :
  access_user m = Some u -> v <> u ->
  users (run_calls cs m w).2 !!! v = users w !!! v.
Proof.
  revert m w. induction cs as [|c cs IH]; intros m w Hau Hv; [reflexivity|].
  rewrite run_calls_cons. cbn [snd].
  destruct (run_call_bound c m w u Hau) as (Hb & _).
  rewrite (IH _ _ Hb Hv). apply (run_call_bound_others c m w u v Hau Hv).
Qed.

Lemma run_call_metric c m w :
  NETWORK_TRANSMIT_BYTES (run_call c m w).2
  = NETWORK_TRANSMIT_BYTES w + Z.of_nat (transferred c m (run_call c m w).1.1).
Proof.
  destruct c as [d|d|n|peer]; cbn [run_call transferred].
  - destruct (encrypt_account d m w) as [Hw _]. unfold bind.
    destruct (encrypt d m w) as [[[p|e] m'] w']; cbn [fst snd ret] in *;
      subst w'; apply account_fields.
  - destruct (cipher m) as [c|] eqn:Hc.
    + rewrite (decrypt_persisted_eq d m w c Hc). cbn [snd]. apply account_fields.
    + rewrite decrypt_without_cipher by exact Hc.
      pose proof (f_equal snd (init_traffic 1%positive d m w)) as Hn.
      unfold traffic in Hn. cbn [snd] in Hn.
      destruct (_init_cipher_and_decrypt_first_data d m w)
        as [[[[p|]|e] m'] w'] eqn:Hinit; cbn [fst snd] in *.
      * rewrite (first_data_path_ret _ _ _ _ _ _ Hinit). cbn [fst snd].
        destruct (account_fields (length p) m' w') as (_ & _ & _ & ->). lia.
      * rewrite (first_data_path_none _ _ _ _ _ Hinit). cbn [fst snd]. lia.
      * rewrite (first_data_path_raise _ _ _ _ _ _ Hinit). cbn [fst snd]. lia.
  - unfold incr_user_tcp_num. py_unfold. cbn beta iota.
    destruct (access_user m); cbn; lia.
  - unfold record_user_ip. py_unfold. cbn beta iota.
    destruct (access_user m); cbn; lia.
Qed.

(** [NETWORK_TRANSMIT_BYTES] counts every session, bound or not: over any
    sequence of calls it grows by exactly the sum of the calls' byte
    counts, and never decreases. *)
Theorem metric_counts_every_call cs m w :
  NETWORK_TRANSMIT_BYTES (run_calls cs m w).2
  = NETWORK_TRANSMIT_BYTES w + sum (byte_counts cs m w)
  /\ NETWORK_TRANSMIT_BYTES w <= NETWORK_TRANSMIT_BYTES (run_calls cs m w).2.
Proof.
  assert (E : forall cs m w,
             NETWORK_TRANSMIT_BYTES (run_calls cs m w).2
             = NETWORK_TRANSMIT_BYTES w + sum (byte_counts cs m w)).
  { clear. intros cs. induction cs as [|c cs IH]; intros m w.
    - cbn. unfold sum. cbn. lia.
    - rewrite run_calls_cons, byte_counts_cons, sum_cons. cbn [snd].
      rewrite IH, run_call_metric. lia. }
  split; [apply E|]. rewrite E. unfold sum. lia.
Qed.

(** [encrypt] before any user is bound: the length is added to
    [NETWORK_TRANSMIT_BYTES], then reading [self.access_user.password]
    raises [AttributeError]; no field of the manager and no user object
    changes. *)
Theorem encrypt_unbound_raises d m w :
  access_user m = None ->
  cipher m = None ->
  encrypt d m w
  = (Raise (AttributeError "'NoneType' object has no attribute 'password'"),
     m, account (length d) m w)
  /\ users (account (length d) m w) = users w
  /\ NETWORK_TRANSMIT_BYTES (account (length d) m w)
     = NETWORK_TRANSMIT_BYTES w + Z.of_nat (length d).
Proof.
  intros Hau Hc. split.
  - unfold encrypt. rewrite bind_record_user_traffic.
    unfold new_cipher_of_access_user. py_unfold. cbn beta iota.
    destruct (transport_eqb (ts_protocol m) TRANSPORT_UDP); cbn beta iota;
      rewrite ?Hc; cbn beta iota; rewrite Hau; reflexivity.
  - unfold account. rewrite Hau. split; reflexivity.
Qed.

End BoundSessions.

(** ** Cipher lifetime *)

Section CipherLifetime.

Context `{CS : Ciphers} `{RG : BloomFilter}.

Implicit Types (m : CipherMan) (w : World) (u : ref) (d data : bytes).

Lemma credentials_update_user (f : User.t -> User.t) v u0 w :
  (forall o, User.user_id (f o) = User.user_id o
             /\ User.port (f o) = User.port o
             /\ User.method (f o) = User.method o
             /\ User.password (f o) = User.password o
             /\ User.enable (f o) = User.enable o) ->
  credentials v (set_users (<[u0 := f (users w !!! u0)]> (users w)) w)
  = credentials v w.
Proof.
  intros Hf. unfold credentials. cbn [users set_users].
  destruct (decide (u0 = v)) as [->|Hne].
  - rewrite lookup_total_insert_eq.
    destruct (Hf (users w !!! v)) as (-> & -> & -> & -> & ->). reflexivity.
  - rewrite lookup_total_insert_ne by exact Hne. reflexivity.
Qed.

Ltac credentials_leaf :=
  first [ reflexivity
        | apply credentials_update_user; intros o; repeat split ].

Lemma find_loop_credentials v d us cnt :
  keeps (fun _ => credentials v) (find_loop d us cnt).
Proof.
  revert cnt. induction us as [|u us IH]; intros cnt; cbn [find_loop].
  - frame.
  - frame; try reflexivity; try apply IH.
    all: unfold trial; frame; reflexivity.
Qed.

Lemma run_call_credentials v c : keeps (fun _ => credentials v) (run_call c).
Proof.
  destruct c as [d|d|n|peer]; cbn [run_call].
  - unfold encrypt, new_cipher_of_access_user, _record_user_traffic.
    frame; credentials_leaf.
  - unfold decrypt, _init_cipher_and_decrypt_first_data, _find_access_user,
      _record_user_traffic.
    frame; try apply find_loop_credentials; credentials_leaf.
  - unfold incr_user_tcp_num. frame; credentials_leaf.
  - unfold record_user_ip. frame; credentials_leaf.
Qed.

Lemma run_calls_credentials cs m w v :
  credentials v (run_calls cs m w).2 = credentials v w.
Proof.
  revert m w. induction cs as [|c cs IH]; intros m w; [reflexivity|].
  rewrite run_calls_cons. cbn [snd]. rewrite IH. apply run_call_credentials.
Qed.

Lemma account_password n m w v :
  User.password (users (account n m w) !!! v) = User.password (users w !!! v).
Proof.
  assert (H : credentials v (account n m w) = credentials v w).
  { unfold account. destruct (access_user m) as [u|]; [|reflexivity].
    cbn [NETWORK_TRANSMIT_BYTES set_users].
    apply (credentials_update_user
             (User.record_traffic (Z.of_nat n) (Z.of_nat n))).
    intros o. repeat split. }
  unfold credentials in H. congruence.
Qed.

(** [encrypt] on a TCP session: with the persisted cipher if there is one,
    else with a cipher made from the bound user's password, which is then
    persisted. *)
Lemma encrypt_stream_eq d m w c :
  ts_protocol m = TRANSPORT_TCP ->
  (cipher m = Some c
   \/ (cipher m = None
       /\ exists u, access_user m = Some u
                    /\ c = cipher_new (cipher_cls m) (User.password (users w !!! u)))) ->
  encrypt d m w
  = ((cipher_encrypt (cipher_cls m) c d).1,
     set_cipher (Some (cipher_encrypt (cipher_cls m) c d).2) m,
     account (length d) m w).
Proof.
  intros Hts Hc. unfold encrypt. rewrite bind_record_user_traffic.
  unfold new_cipher_of_access_user. py_unfold. cbn beta iota.
  rewrite Hts. cbn [transport_eqb]. cbn beta iota.
  destruct Hc as [Hc|(Hc & u & Hau & ->)]; rewrite Hc; cbn beta iota.
  - destruct (cipher_encrypt (cipher_cls m) c d) as [r c']. reflexivity.
  - rewrite Hau. cbn beta iota. rewrite account_password.
    cbn [cipher_cls set_cipher].
    destruct (cipher_encrypt _ _ d) as [r c']. reflexivity.
Qed.

Lemma run_call_stream c0 m w c :
  ts_protocol m = TRANSPORT_TCP ->
  cipher m = Some c ->
  (run_call c0 m w).1.1 :: [] = (stream_calls (cipher_cls m) c [c0]).1
  /\ cipher (run_call c0 m w).1.2 = Some (stream_calls (cipher_cls m) c [c0]).2.
Proof.
  intros Hts Hc. destruct c0 as [d|d|n|peer]; cbn [run_call stream_calls].
  - unfold bind. rewrite (encrypt_stream_eq d m w c Hts (or_introl Hc)).
    destruct (cipher_encrypt (cipher_cls m) c d) as [[p|e] c'];
      split; reflexivity.
  - rewrite (decrypt_persisted_eq d m w c Hc).
    destruct (cipher_decrypt (cipher_cls m) c d) as [[p|e] c'];
      split; reflexivity.
  - unfold incr_user_tcp_num. py_unfold. cbn beta iota.
    destruct (access_user m); split; cbn; auto.
  - unfold record_user_ip. py_unfold. cbn beta iota.
    destruct (access_user m); split; cbn; auto.
Qed.

Lemma stream_calls_cons cls c c0 cs :
  stream_calls cls c (c0 :: cs)
  = ((stream_calls cls c [c0]).1
       ++ (stream_calls cls (stream_calls cls c [c0]).2 cs).1,
     (stream_calls cls (stream_calls cls c [c0]).2 cs).2)%list.
Proof.
  destruct c0 as [d|d|n|peer]; cbn [stream_calls].
  - destruct (cipher_encrypt cls c d) as [r c']. cbn [fst snd].
    destruct (stream_calls cls c' cs) as [rs c'']. reflexivity.
  - destruct (cipher_decrypt cls c d) as [r c']. cbn [fst snd].
    destruct (stream_calls cls c' cs) as [rs c'']. reflexivity.
  - cbn [fst snd]. destruct (stream_calls cls c cs) as [rs c'']. reflexivity.
  - cbn [fst snd]. destruct (stream_calls cls c cs) as [rs c'']. reflexivity.
Qed.

Lemma run_calls_stream cs m w c :
  ts_protocol m = TRANSPORT_TCP ->
  cipher m = Some c ->
  (run_calls cs m w).1.1 = (stream_calls (cipher_cls m) c cs).1
  /\ cipher (run_calls cs m w).1.2 = Some (stream_calls (cipher_cls m) c cs).2.
Proof.
  revert m w c. induction cs as [|c0 cs IH]; intros m w c Hts Hc.
  - split; [reflexivity|exact Hc].
  - rewrite run_calls_cons, stream_calls_cons. cbn [fst snd].
    destruct (run_call_stream c0 m w c Hts Hc) as [Hr Hc'].
    pose proof (run_call_config c0 m w) as Hcfg. cbn beta in Hcfg.
    unfold config in Hcfg. injection Hcfg as Hts' _ Hcl _.
    rewrite Hts in Hts'.
    destruct (IH _ (run_call c0 m w).2 _ Hts' Hc') as [IH1 IH2].
    rewrite Hcl in IH1, IH2. rewrite IH1, IH2, <- Hr. split; reflexivity.
Qed.

(** A TCP session that holds a cipher serves every later [encrypt] and
    [decrypt] with that one instance: each call continues from the state
    the call before left, and no call replaces or resets it. *)
Theorem stream_cipher_is_threaded cs m w c :
  ts_protocol m = TRANSPORT_TCP ->
  cipher m = Some c ->
  (run_calls cs m w).1.1 = (stream_calls (cipher_cls m) c cs).1
  /\ cipher (run_calls cs m w).1.2 = Some (stream_calls (cipher_cls m) c cs).2.
Proof. apply run_calls_stream. Qed.

(** A bound TCP session without a cipher whose first call is [encrypt]
    makes its cipher from the bound user's password at that call and
    serves it and every later call with that instance. *)
Theorem stream_encrypt_creates_cipher_lazily d cs m w u :
  ts_protocol m = TRANSPORT_TCP ->
  cipher m = None ->
  access_user m = Some u ->
  (run_calls (Encrypt d :: cs) m w).1.1
  = (stream_calls (cipher_cls m)
       (cipher_new (cipher_cls m) (User.password (users w !!! u)))
       (Encrypt d :: cs)).1
  /\ cipher (run_calls (Encrypt d :: cs) m w).1.2
     = Some (stream_calls (cipher_cls m)
               (cipher_new (cipher_cls m) (User.password (users w !!! u)))
               (Encrypt d :: cs)).2.
Proof.
  intros Hts Hc Hau.
  set (c := cipher_new (cipher_cls m) (User.password (users w !!! u))).
  rewrite run_calls_cons, stream_calls_cons. cbn [fst snd].
  assert (He : encrypt d m w
               = ((cipher_encrypt (cipher_cls m) c d).1,
                  set_cipher (Some (cipher_encrypt (cipher_cls m) c d).2) m,
                  account (length d) m w)).
  { apply encrypt_stream_eq; [exact Hts|]. right. split; [exact Hc|].
    exists u. split; [exact Hau|reflexivity]. }
  cbn [run_call stream_calls]. unfold bind. rewrite He.
  destruct (cipher_encrypt (cipher_cls m) c d) as [r c'] eqn:Hr.
  cbn [fst snd].
  destruct (run_calls_stream cs (set_cipher (Some c') m)
              (account (length d) m w) c' Hts eq_refl) as [H1 H2].
  cbn [cipher_cls set_cipher] in H1, H2.
  destruct r as [p|e]; cbn [ret fst snd some_outcome app];
    rewrite H1, H2; split; reflexivity.
Qed.

(** Every [encrypt] of a bound UDP session packs with a cipher fresh from
    the bound user's password, whatever calls came before it, and changes
    no field of the manager: nothing of one datagram reaches the next. *)
Theorem datagram_encrypt_is_stateless cs d m w u :
  ts_protocol m = TRANSPORT_UDP ->
  access_user m = Some u ->
  (encrypt d (run_calls cs m w).1.2 (run_calls cs m w).2).1.1
  = cipher_pack (cipher_cls m)
      (cipher_new (cipher_cls m) (User.password (users w !!! u))) d
  /\ (encrypt d (run_calls cs m w).1.2 (run_calls cs m w).2).1.2
     = (run_calls cs m w).1.2.
Proof.
  intros Hts Hau.
  destruct (run_calls_bound cs m w u Hau) as [Hb _].
  pose proof (run_calls_config cs m w) as Hcfg.
  pose proof (run_calls_credentials cs m w u) as Hcr.
  set (m' := (run_calls cs m w).1.2) in *.
  set (w' := (run_calls cs m w).2) in *.
  unfold config in Hcfg. injection Hcfg as Hts' _ Hcl _.
  unfold credentials in Hcr. injection Hcr as _ _ _ Hpw _.
  rewrite Hts in Hts'. split; [|apply encrypt_datagram; exact Hts'].
  unfold encrypt. rewrite bind_record_user_traffic.
  unfold new_cipher_of_access_user. py_unfold. cbn beta iota.
  rewrite Hts'. cbn [transport_eqb]. cbn beta iota. rewrite Hb.
  cbn beta iota. rewrite account_password, Hpw, Hcl.
  destruct (cipher_pack _ _ d); reflexivity.
Qed.

End CipherLifetime.

(** ** After a refused first blob *)

Section Refused.

Context `{CS : Ciphers} `{RG : BloomFilter}.

Implicit Types (m : CipherMan) (w : World) (u : ref) (d data : bytes).

Lemma first_data_path_self data m w :
  (first_data_path data m w).1.2
  = (_init_cipher_and_decrypt_first_data data m w).1.2.
Proof.
  unfold first_data_path. unfold bind at 1.
  destruct (_init_cipher_and_decrypt_first_data data m w)
    as [[[o|e] m'] w']; cbn [fst snd]; [|reflexivity].
  match goal with |- (?c m' w').1.2 = _ =>
    assert (keeps (fun m _ => m) c) as Hk end.
  { frame; try reflexivity. apply record_user_traffic_self. }
  apply Hk.
Qed.

Lemma first_data_path_guard data m w :
  guard (first_data_path data m w).2
  = guard (_init_cipher_and_decrypt_first_data data m w).2.
Proof.
  unfold first_data_path. unfold bind at 1.
  destruct (_init_cipher_and_decrypt_first_data data m w)
    as [[[o|e] m'] w']; cbn [fst snd]; [|reflexivity].
  match goal with |- guard (?c m' w').2 = _ =>
    assert (keeps (fun _ => guard) c) as Hk end.
  { frame; try reflexivity. apply record_user_traffic_guard. }
  apply Hk.
Qed.

Lemma but_user_list_eq m m' :
  but_user_list m = but_user_list m' ->
  config m = config m' /\ _buffer m = _buffer m'
  /\ cipher m = cipher m' /\ access_user m = access_user m'.
Proof.
  intros H. repeat split.
  - exact (f_equal config H).
  - exact (f_equal _buffer H).
  - exact (f_equal cipher H).
  - exact (f_equal access_user H).
Qed.

(** At or above the threshold the first-data call runs identification on
    an unbound session, and its manager (the candidate list apart) and
    Replay Guard are those identification leaves. *)
Lemma init_unbound_enough data m w :
  access_user m = None ->
  (_first_data_len m <= length data + length (_buffer m))%nat ->
  but_user_list (_init_cipher_and_decrypt_first_data data m w).1.2
  = but_user_list (_find_access_user (_buffer m ++ data) (set_buffer [] m) w).1.2
  /\ guard (_init_cipher_and_decrypt_first_data data m w).2
     = guard (_find_access_user (_buffer m ++ data) (set_buffer [] m) w).2.
Proof.
  intros Hau Hlen. rewrite init_enough by exact Hlen. rewrite Hau.
  unfold bind.
  destruct (_find_access_user (_buffer m ++ data) (set_buffer [] m) w)
    as [[[[]|e] m'] w']; cbn [fst snd]; [|split; reflexivity].
  split; [apply after_identification_self|apply after_identification_guard].
Qed.

Lemma find_loop_unbound_no_cipher d us cnt m w :
  cipher m = None ->
  access_user (find_loop d us cnt m w).1.2 = None ->
  cipher (find_loop d us cnt m w).1.2 = None.
Proof.
  revert cnt m w. induction us as [|u us IH]; intros cnt m w Hc.
  - intros _. exact Hc.
  - rewrite find_loop_cons.
    destruct (seed_fields u m) as (_ & _ & Hci & _).
    destruct (trial_outcome m w u d) as [p|e].
    + cbn. discriminate.
    + destruct (mac_check_failed (Raise e)).
      * apply IH. rewrite Hci. exact Hc.
      * intros _. cbn [fst snd]. rewrite Hci. exact Hc.
Qed.

Lemma find_access_user_unbound_no_cipher d m w :
  cipher m = None ->
  access_user (_find_access_user d m w).1.2 = None ->
  cipher (_find_access_user d m w).1.2 = None.
Proof.
  intros Hc. destruct (bf_contains (salt_of m d) (bf w)) eqn:Hs.
  - rewrite find_access_user_replay by exact Hs. intros _. exact Hc.
  - rewrite find_access_user_fresh by exact Hs.
    match goal with |- context [find_loop ?a ?b ?c ?x ?y] =>
      pose proof (find_loop_unbound_no_cipher a b c x y Hc) as Hl;
      destruct (find_loop a b c x y) as [[[cnt|e] m'] w'] end;
      exact Hl.
Qed.

(** A first blob that leaves the session unbound -- every candidate failed
    the integrity check, a trial raised, or the salt was already known --
    cannot be tried again: the session is still unbound, and sending the
    same bytes to it once more raises the replay error without a single
    trial decryption.  (The Replay Guard has no false negatives.) *)
Theorem refused_blob_cannot_be_retried {SND : BloomFilterSound} data m w :
  access_user m = None ->
  cipher m = None ->
  (_first_data_len m <= length data + length (_buffer m))%nat ->
  access_user (decrypt data m w).1.2 = None ->
  exists m2,
    decrypt (_buffer m ++ data) (decrypt data m w).1.2 (decrypt data m w).2
    = (Raise (RuntimeError RepeatedSalt), m2,
       logged (BfContains (salt_of m (_buffer m ++ data))) (decrypt data m w).2)
    /\ access_user m2 = None.
Proof.
  intros Hau Hc Hlen.
  rewrite !(decrypt_without_cipher data m w Hc).
  set (blob := (_buffer m ++ data)%list).
  destruct (init_unbound_enough data m w Hau Hlen) as [Hm Hg].
  pose proof (first_data_path_self data m w) as Hm1.
  pose proof (first_data_path_guard data m w) as Hg1.
  set (m1 := (first_data_path data m w).1.2) in *.
  set (w1 := (first_data_path data m w).2) in *.
  fold blob in Hm, Hg. rewrite <- Hm1 in Hm. rewrite Hg in Hg1.
  intros Hau1.
  destruct (but_user_list_eq _ _ Hm) as (Hcfg & Hbuf & Hci & Hau2).
  pose proof (find_access_user_config blob (set_buffer [] m) w) as Hk.
  cbn beta in Hk.
  pose proof (f_equal fst Hk) as Hk1. pose proof (f_equal snd Hk) as Hk2.
  cbn [fst snd] in Hk1, Hk2. rewrite Hk1 in Hcfg. rewrite Hk2 in Hbuf.
  cbn [_buffer set_buffer] in Hbuf. clear Hk Hk1 Hk2.
  pose proof (f_equal (fun t : transport * string
                                * CipherCls Cipher * nat => t.1.2) Hcfg) as Hcl.
  pose proof (f_equal snd Hcfg) as Hth.
  unfold config in Hcl, Hth. cbn [fst snd set_buffer cipher_cls _first_data_len]
    in Hcl, Hth. clear Hcfg.
  assert (Hc1 : cipher m1 = None).
  { rewrite Hci. apply find_access_user_unbound_no_cipher; [exact Hc|].
    rewrite <- Hau2. exact Hau1. }
  assert (Hs : bf_contains (salt_of m blob) (bf w1) = true).
  { unfold guard in Hg1. injection Hg1 as -> _.
    apply (find_access_user_burns_salt blob (set_buffer [] m) w). }
  exists (set_buffer [] m1). split; [|exact Hau1].
  rewrite decrypt_without_cipher by exact Hc1.
  apply first_data_path_raise.
  rewrite init_enough.
  2:{ rewrite Hth, Hbuf. unfold blob. rewrite length_app. cbn [length]. lia. }
  rewrite Hau1, Hbuf. unfold bind. cbn [app].
  rewrite find_access_user_replay.
  - unfold salt_of. cbn [cipher_cls set_buffer]. rewrite Hcl. reflexivity.
  - unfold salt_of in *. cbn [cipher_cls set_buffer]. rewrite Hcl. exact Hs.
Qed.

(** The enabled flag is read on the first-data path only.  A TCP session
    whose matched user is disabled is refused by its first [decrypt], but
    identification has already persisted the cipher and bound the session:
    a further [decrypt] on the same manager goes through the persisted
    cipher and returns what it decrypts. *)
Theorem disabled_stream_user_is_served_after_refusal data m w pre u post p :
  ts_protocol m = TRANSPORT_TCP ->
  access_user m = None ->
  cipher m = None ->
  (_first_data_len m <= length data + length (_buffer m))%nat ->
  bf_contains (salt_of m (_buffer m ++ data)) (bf w) = false ->
  user_list m = (pre ++ u :: post)%list ->
  Forall (fun v =>
            mac_check_failed (trial_outcome m w v (_buffer m ++ data)) = true)
         pre ->
  trial_outcome m w u (_buffer m ++ data) = Ret p ->
  User.enable (users w !!! u) = false ->
  exists c1,
    (decrypt data m w).1.1 = Raise (RuntimeError (UserDisabled u))
    /\ c1 = (cipher_decrypt (cipher_cls m)
               (cipher_new (cipher_cls m) (User.password (users w !!! u)))
               (_buffer m ++ data)).2
    /\ cipher (decrypt data m w).1.2 = Some c1
    /\ forall d2,
         (decrypt d2 (decrypt data m w).1.2 (decrypt data m w).2).1.1
         = some_outcome (cipher_decrypt (cipher_cls m) c1 d2).1.
Proof.
  intros Hts Hau Hci Hlen Hs Hl Hpre Hu Hen.
  set (d := (_buffer m ++ data)%list) in *.
  set (mb := bound u p (trial_cipher m w u d) (seeded (user_list m) (set_buffer [] m))).
  set (wb := logged (LogInfo (Some u) (S (length pre)))
               (logged (Trial u d)
                  (logged_all (tried d pre)
                     (set_bf (bf_add (salt_of m d) (bf w))
                        (logged (BfAdd (salt_of m d))
                           (logged (BfContains (salt_of m d)) w)))))).
  assert (Hinit : _init_cipher_and_decrypt_first_data data m w
                  = (Raise (RuntimeError (UserDisabled u)), mb, wb)).
  { rewrite init_enough by exact Hlen. rewrite Hau. unfold bind at 1.
    fold d.
    rewrite (find_access_user_hit d (set_buffer [] m) w pre u post p);
      [ | exact Hs | exact Hl | | ].
    - apply (after_identification_disabled _ _ u); [reflexivity|exact Hen].
    - eapply Forall_impl; [exact Hpre|]. intros v Hv. cbn beta.
      erewrite trial_outcome_frame; [exact Hv|reflexivity..].
    - erewrite trial_outcome_frame; [exact Hu|reflexivity..]. }
  assert (Hdec : decrypt data m w
                 = (Raise (RuntimeError (UserDisabled u)), mb, wb)).
  { rewrite decrypt_without_cipher by exact Hci.
    apply first_data_path_raise. exact Hinit. }
  rewrite Hdec. cbn [fst snd].
  assert (Hcb : cipher mb
                = Some (cipher_decrypt (cipher_cls m)
                          (cipher_new (cipher_cls m)
                             (User.password (users w !!! u))) d).2).
  { unfold mb, trial_cipher. cbn [cipher bound set_access_user set_cipher].
    rewrite Hts. reflexivity. }
  assert (Hclb : cipher_cls mb = cipher_cls m).
  { unfold mb. cbn [cipher_cls bound set_access_user set_cipher set_first_data].
    destruct (seeded_fields (user_list m) (set_buffer [] m)) as (_ & -> & _).
    reflexivity. }
  eexists. split; [reflexivity|]. split; [reflexivity|]. split; [exact Hcb|].
  intros d2. rewrite (decrypt_persisted_eq d2 mb wb _ Hcb). cbn [fst].
  rewrite Hclb. reflexivity.
Qed.

End Refused.

(** ** The further properties on the concrete instance *)

Module ToyExtras.

Import Toy.

Example stream1_open_reached :
  (run_call (Encrypt [Byte.x68; Byte.x69; Byte.x21]) stream1 world0).1.2
  = stream1_open.
Proof. reflexivity. Qed.

Example datagram3_bob_reached :
  (run_call (Decrypt to_bravo) datagram3 world0).1.2 = datagram3_bob.
Proof. reflexivity. Qed.

Lemma construction_fails_without_users_or_method_witness :
  get_cipher_by_port list_by_port1 world1 9999 TRANSPORT_TCP
  = Raise (IndexError "list index out of range")
  /\ get_cipher_by_port list_by_port1 world1 8390 TRANSPORT_TCP
     = Raise (AttributeError "'NoneType' object has no attribute 'SALT_SIZE'").
Proof.
  split.
  - apply (proj1 (construction_fails_without_users_or_method
                    list_by_port1 world1 9999 TRANSPORT_TCP)).
    reflexivity.
  - apply (proj2 (construction_fails_without_users_or_method
                    list_by_port1 world1 8390 TRANSPORT_TCP) 5%positive []).
    + reflexivity.
    + reflexivity.
Defined.

Lemma construction_binds_exactly_single_user_witness :
  exists u rest,
    list_by_port world0 8388 = u :: rest
    /\ user_list datagram3 = u :: rest
    /\ (access_user datagram3 = Some u <-> rest = [])
    /\ (access_user datagram3 = None <-> rest <> [])
    /\ method datagram3 = User.method (users world0 !!! u)
    /\ SUPPORT_METHODS (User.method (users world0 !!! u))
       = Some (cipher_cls datagram3)
    /\ ts_protocol datagram3 = TRANSPORT_UDP
    /\ cipher datagram3 = None /\ _first_data datagram3 = None
    /\ _buffer datagram3 = []
    /\ last_access_user datagram3 = None.
Proof.
  apply (construction_binds_exactly_single_user list_by_port world0 8388).
  reflexivity.
Defined.

Lemma buffer_stays_below_threshold_witness :
  buffer_ok
    (run_calls [Decrypt [Byte.x01; Byte.x02]; Decrypt [Byte.x62];
                Decrypt to_bravo] stream3 world0).1.2.
Proof. apply buffer_stays_below_threshold. left. reflexivity. Defined.

Lemma buffering_is_transparent_witness :
  _init_cipher_and_decrypt_first_data [Byte.x62; Byte.x68; Byte.x69]
    (_init_cipher_and_decrypt_first_data [Byte.x01; Byte.x02] stream3 world0).1.2
    (_init_cipher_and_decrypt_first_data [Byte.x01; Byte.x02] stream3 world0).2
  = _init_cipher_and_decrypt_first_data
      ([Byte.x01; Byte.x02] ++ [Byte.x62; Byte.x68; Byte.x69]) stream3 world0
  /\ first_data_path [Byte.x62; Byte.x68; Byte.x69]
       (_init_cipher_and_decrypt_first_data [Byte.x01; Byte.x02] stream3 world0).1.2
       (_init_cipher_and_decrypt_first_data [Byte.x01; Byte.x02] stream3 world0).2
     = first_data_path
         ([Byte.x01; Byte.x02] ++ [Byte.x62; Byte.x68; Byte.x69]) stream3 world0.
Proof. apply buffering_is_transparent. cbn. lia. Defined.

Lemma first_matching_candidate_is_bound_witness :
  exists m' w',
    decrypt to_bravo stream3 world0 = (Ret (Some [Byte.x68; Byte.x69]), m', w')
    /\ access_user m' = Some 2%positive
    /\ _first_data m' = Some [Byte.x68; Byte.x69]
    /\ _buffer m' = []
    /\ cipher m' = trial_cipher stream3 world0 2%positive (_buffer stream3 ++ to_bravo)
    /\ trials (log w')
       = ((2%positive, (_buffer stream3 ++ to_bravo)%list)
            :: reverse (map (fun v => (v, (_buffer stream3 ++ to_bravo)%list))
                          [1%positive])
            ++ trials (log world0))%list
    /\ In (LogInfo (Some 2%positive) (S (length [1%positive]))) (log w')
    /\ bf w' = bf_add (salt_of stream3 (_buffer stream3 ++ to_bravo)) (bf world0)
    /\ User.upload_traffic (users w' !!! 2%positive)
       = User.upload_traffic (users world0 !!! 2%positive)
         + Z.of_nat (length [Byte.x68; Byte.x69])
    /\ NETWORK_TRANSMIT_BYTES w'
       = NETWORK_TRANSMIT_BYTES world0 + Z.of_nat (length [Byte.x68; Byte.x69]).
Proof.
  apply (first_matching_candidate_is_bound to_bravo stream3 world0
           [1%positive] 2%positive [3%positive]).
  - reflexivity.
  - reflexivity.
  - cbn. lia.
  - reflexivity.
  - reflexivity.
  - repeat constructor.
  - reflexivity.
  - reflexivity.
Defined.

Lemma bound_session_stays_bound_witness :
  access_user
    (run_calls [Decrypt to_bravo_again; Encrypt [Byte.x68]; Decrypt to_nobody]
       datagram3_bob world0).1.2 = Some 2%positive
  /\ identification
       (run_calls [Decrypt to_bravo_again; Encrypt [Byte.x68]; Decrypt to_nobody]
          datagram3_bob world0).2 = identification world0.
Proof. apply bound_session_stays_bound. reflexivity. Defined.

Lemma bound_session_touches_only_its_user_witness :
  users
    (run_calls [Decrypt to_bravo_again; Encrypt [Byte.x68]; IncrUserTcpNum 1]
       datagram3_bob world0).2 !!! 1%positive
  = users world0 !!! 1%positive.
Proof.
  apply (bound_session_touches_only_its_user _ _ _ 2%positive).
  - reflexivity.
  - discriminate.
Defined.

Lemma encrypt_unbound_raises_witness :
  encrypt [Byte.x68; Byte.x69] stream3 world0
  = (Raise (AttributeError "'NoneType' object has no attribute 'password'"),
     stream3, account (length [Byte.x68; Byte.x69]) stream3 world0)
  /\ users (account (length [Byte.x68; Byte.x69]) stream3 world0) = users world0
  /\ NETWORK_TRANSMIT_BYTES (account (length [Byte.x68; Byte.x69]) stream3 world0)
     = NETWORK_TRANSMIT_BYTES world0 + Z.of_nat (length [Byte.x68; Byte.x69]).
Proof. apply encrypt_unbound_raises; reflexivity. Defined.

Lemma stream_cipher_is_threaded_witness :
  (run_calls [Encrypt [Byte.x68]; Decrypt to_dave; Encrypt [Byte.x69]]
     stream1_open world0).1.1
  = (stream_calls (cipher_cls stream1_open) (mkState "delta" 1)
       [Encrypt [Byte.x68]; Decrypt to_dave; Encrypt [Byte.x69]]).1
  /\ cipher (run_calls [Encrypt [Byte.x68]; Decrypt to_dave; Encrypt [Byte.x69]]
               stream1_open world0).1.2
     = Some (stream_calls (cipher_cls stream1_open) (mkState "delta" 1)
               [Encrypt [Byte.x68]; Decrypt to_dave; Encrypt [Byte.x69]]).2.
Proof. apply stream_cipher_is_threaded; reflexivity. Defined.

(** The three calls above use the blocks 1, 2 and 3 of one cipher. *)
Example stream_blocks_advance :
  (run_calls [Encrypt [Byte.x68]; Decrypt to_dave; Encrypt [Byte.x69]]
     stream1_open world0).1.1
  = [Ret (Some (seal_packet "delta" 1 [Byte.x68]));
     Ret (Some [Byte.x68; Byte.x69]);
     Ret (Some (seal_packet "delta" 3 [Byte.x69]))].
Proof. reflexivity. Qed.

Lemma stream_encrypt_creates_cipher_lazily_witness :
  (run_calls (Encrypt [Byte.x68] :: [Encrypt [Byte.x69]]) stream1 world0).1.1
  = (stream_calls (cipher_cls stream1)
       (cipher_new (cipher_cls stream1)
          (User.password (users world0 !!! 4%positive)))
       (Encrypt [Byte.x68] :: [Encrypt [Byte.x69]])).1
  /\ cipher (run_calls (Encrypt [Byte.x68] :: [Encrypt [Byte.x69]])
               stream1 world0).1.2
     = Some (stream_calls (cipher_cls stream1)
               (cipher_new (cipher_cls stream1)
                  (User.password (users world0 !!! 4%positive)))
               (Encrypt [Byte.x68] :: [Encrypt [Byte.x69]])).2.
Proof. apply stream_encrypt_creates_cipher_lazily; reflexivity. Defined.

Lemma datagram_encrypt_is_stateless_witness :
  (encrypt [Byte.x69]
     (run_calls [Encrypt [Byte.x68]; Encrypt [Byte.x68]] datagram1 world0).1.2
     (run_calls [Encrypt [Byte.x68]; Encrypt [Byte.x68]] datagram1 world0).2).1.1
  = cipher_pack (cipher_cls datagram1)
      (cipher_new (cipher_cls datagram1)
         (User.password (users world0 !!! 4%positive))) [Byte.x69]
  /\ (encrypt [Byte.x69]
        (run_calls [Encrypt [Byte.x68]; Encrypt [Byte.x68]] datagram1 world0).1.2
        (run_calls [Encrypt [Byte.x68]; Encrypt [Byte.x68]] datagram1 world0).2).1.2
     = (run_calls [Encrypt [Byte.x68]; Encrypt [Byte.x68]] datagram1 world0).1.2.
Proof. apply datagram_encrypt_is_stateless; reflexivity. Defined.

Lemma refused_blob_cannot_be_retried_witness :
  exists m2,
    decrypt (_buffer stream3 ++ to_nobody)
      (decrypt to_nobody stream3 world0).1.2 (decrypt to_nobody stream3 world0).2
    = (Raise (RuntimeError RepeatedSalt), m2,
       logged (BfContains (salt_of stream3 (_buffer stream3 ++ to_nobody)))
         (decrypt to_nobody stream3 world0).2)
    /\ access_user m2 = None.
Proof.
  apply (refused_blob_cannot_be_retried (SND := ToyFacts.bloom_sound)).
  - reflexivity.
  - reflexivity.
  - cbn. lia.
  - reflexivity.
Defined.

Lemma disabled_stream_user_is_served_after_refusal_witness :
  exists c1,
    (decrypt to_carol stream3 world0).1.1 = Raise (RuntimeError (UserDisabled 3))
    /\ c1 = (cipher_decrypt (cipher_cls stream3)
               (cipher_new (cipher_cls stream3)
                  (User.password (users world0 !!! 3%positive)))
               (_buffer stream3 ++ to_carol)).2
    /\ cipher (decrypt to_carol stream3 world0).1.2 = Some c1
    /\ forall d2,
         (decrypt d2 (decrypt to_carol stream3 world0).1.2
            (decrypt to_carol stream3 world0).2).1.1
         = some_outcome (cipher_decrypt (cipher_cls stream3) c1 d2).1.
Proof.
  apply (disabled_stream_user_is_served_after_refusal to_carol stream3 world0
           [1; 2]%positive 3%positive [] [Byte.x68; Byte.x69]).
  - reflexivity.
  - reflexivity.
  - reflexivity.
  - cbn. lia.
  - reflexivity.
  - reflexivity.
  - repeat constructor.
  - reflexivity.
  - reflexivity.
Defined.

End ToyExtras.
